(** * portainer-py: the authenticated request core and its collaborators

    A shallow embedding of [portainer/api/client.py], [portainer/api/container.py],
    [portainer/utils/utils.py], [portainer/utils/decorators.py] and
    [portainer/models/containers.py], followed by the properties of the
    specification that concern them.

    Python values are embedded as the inductive type [PyVal]; a [dict] is an
    insertion-ordered association list with unique keys; an [async] method is
    a computation in the monad [M] that threads the client object and the
    outside world (server, clock, HTTP sessions) and may raise. *)

From Stdlib Require Import ZArith List String Ascii Bool Lia DecimalString.
Import ListNotations.

#[local] Set Warnings "-register-all".

Local Open Scope Z_scope.
Local Open Scope list_scope.
Local Open Scope string_scope.

(** ** Python values *)

Module Py.

(** The values that travel through this library: [None], [bool], [int],
    [str], [list] and [dict] with string keys (the JSON fragment of
    Python).  A [str] is a Rocq string, one character per code point
    below 256; floats do not occur in the modelled calls. *)
Inductive PyVal : Type :=
| PNone
| PBool (b : bool)
| PInt (z : Z)
| PStr (s : string)
| PList (items : list PyVal)
| PDict (items : list (string * PyVal)).

Definition Dict (V : Type) : Type := list (string * V).

Definition is_none (v : PyVal) : bool :=
  match v with PNone => true | _ => false end.

(** [isinstance(v, str)], [isinstance(v, bool)], [isinstance(v, list)],
    [isinstance(v, dict)]. *)
Definition is_str (v : PyVal) : bool :=
  match v with PStr _ => true | _ => false end.
Definition is_bool (v : PyVal) : bool :=
  match v with PBool _ => true | _ => false end.
Definition is_list (v : PyVal) : bool :=
  match v with PList _ => true | _ => false end.
Definition is_dict (v : PyVal) : bool :=
  match v with PDict _ => true | _ => false end.

(** Truth value testing ([if v], [not v]). *)
Definition truthy (v : PyVal) : bool :=
  match v with
  | PNone => false
  | PBool b => b
  | PInt z => negb (z =? 0)%Z
  | PStr s => negb (s =? "")%string
  | PList l => match l with [] => false | _ => true end
  | PDict d => match d with [] => false | _ => true end
  end.

(** *** Dictionaries *)

Fixpoint dict_get {V} (d : Dict V) (k : string) : option V :=
  match d with
  | [] => None
  | (k', v) :: rest => if (k' =? k)%string then Some v else dict_get rest k
  end.

(** [d.get(k, default)] *)
Definition dict_get_default {V} (d : Dict V) (k : string) (default : V) : V :=
  match dict_get d k with Some v => v | None => default end.

(** [d[k] = v]: an existing key keeps its position, a new key is appended. *)
Fixpoint dict_set {V} (d : Dict V) (k : string) (v : V) : Dict V :=
  match d with
  | [] => [(k, v)]
  | (k', v') :: rest =>
      if (k' =? k)%string then (k, v) :: rest else (k', v') :: dict_set rest k v
  end.

(** [d.pop(k)] on a present key; absent keys leave the dict unchanged. *)
Fixpoint dict_remove {V} (d : Dict V) (k : string) : Dict V :=
  match d with
  | [] => []
  | (k', v') :: rest =>
      if (k' =? k)%string then rest else (k', v') :: dict_remove rest k
  end.

Definition dict_keys {V} (d : Dict V) : list string := map fst d.

(** The representation invariant of a [dict]: no key occurs twice. *)
Definition is_dict_repr {V} (d : Dict V) : Prop := NoDup (dict_keys d).

(** *** Text *)

Fixpoint join (sep : string) (parts : list string) : string :=
  match parts with
  | [] => ""
  | [p] => p
  | p :: rest => p ++ sep ++ join sep rest
  end.

Fixpoint starts_with (pre s : string) : bool :=
  match pre, s with
  | EmptyString, _ => true
  | String a pre', String b s' => (Ascii.eqb a b && starts_with pre' s')%bool
  | String _ _, EmptyString => false
  end.

(** [needle in hay] on strings. *)
Fixpoint contains (needle hay : string) : bool :=
  (starts_with needle hay ||
   match hay with
   | EmptyString => false
   | String _ hay' => contains needle hay'
   end)%bool.

Fixpoint take (n : nat) (s : string) : string :=
  match n, s with
  | O, _ => ""
  | S n', String a s' => String a (take n' s')
  | S _, EmptyString => ""
  end.

Definition hex_digit (n : N) : ascii :=
  match n with
  | 0%N => "0" | 1%N => "1" | 2%N => "2" | 3%N => "3" | 4%N => "4"
  | 5%N => "5" | 6%N => "6" | 7%N => "7" | 8%N => "8" | 9%N => "9"
  | 10%N => "a" | 11%N => "b" | 12%N => "c" | 13%N => "d" | 14%N => "e"
  | _ => "f"
  end%char.

Definition hex2 (c : ascii) : string :=
  let n := N_of_ascii c in
  String (hex_digit (n / 16)) (String (hex_digit (n mod 16)) "").

(** [str(z)] for an [int]. *)
Definition str_of_int (z : Z) : string := NilZero.string_of_int (Z.to_int z).

(** The double quote character. *)
Definition dquote : ascii := "034"%char.

Definition has_char (c : ascii) (s : string) : bool :=
  contains (String c "") s.

(** [repr(s)] for a [str]: single quotes unless the text has a single
    quote and no double quote; backslash, the quote and the control
    characters escaped. *)
Definition repr_char (quote c : ascii) : string :=
  let n := N_of_ascii c in
  if (Ascii.eqb c quote || Ascii.eqb c "\")%bool then String "\" (String c "")
  else if (n =? 10)%N then "\n"
  else if (n =? 13)%N then "\r"
  else if (n =? 9)%N then "\t"
  else if ((n <? 32) || ((127 <=? n) && (n <=? 160)) || (n =? 173))%N%bool
       then "\x" ++ hex2 c
  else String c "".

Fixpoint repr_chars (quote : ascii) (s : string) : string :=
  match s with
  | EmptyString => ""
  | String c s' => repr_char quote c ++ repr_chars quote s'
  end.

Definition repr_str (s : string) : string :=
  let quote : ascii :=
    if (has_char "'" s && negb (has_char dquote s))%bool then dquote else "'"%char in
  String quote (repr_chars quote s ++ String quote "").

(** [repr(v)] *)
Fixpoint repr (v : PyVal) : string :=
  match v with
  | PNone => "None"
  | PBool true => "True"
  | PBool false => "False"
  | PInt z => str_of_int z
  | PStr s => repr_str s
  | PList l => "[" ++ join ", " (map repr l) ++ "]"
  | PDict d =>
      "{" ++ join ", " (map (fun kv => repr_str (fst kv) ++ ": " ++ repr (snd kv)) d) ++ "}"
  end.

(** [str(v)], also what an f-string field [{v}] renders. *)
Definition str (v : PyVal) : string :=
  match v with
  | PStr s => s
  | _ => repr v
  end.

End Py.

(** ** [json.dumps] with its default settings *)

Module Json.
Import Py.

(** The escape of one character inside a JSON string ([ensure_ascii]):
    backslash and the double quote take a backslash, the five named
    control characters their letter, every other character outside
    [' '..'~'] the form [\u00xx]. *)
Definition escape_char (c : ascii) : string :=
  let n := N_of_ascii c in
  if Ascii.eqb c "\" then "\\"
  else if Ascii.eqb c dquote then String "\" (String dquote "")
  else if (n =? 8)%N then "\b"
  else if (n =? 12)%N then "\f"
  else if (n =? 10)%N then "\n"
  else if (n =? 13)%N then "\r"
  else if (n =? 9)%N then "\t"
  else if ((n <? 32) || (126 <? n))%N%bool then "\u00" ++ hex2 c
  else String c "".

Fixpoint escape (s : string) : string :=
  match s with
  | EmptyString => ""
  | String c s' => escape_char c ++ escape s'
  end.

Definition dumps_str (s : string) : string :=
  String dquote (escape s ++ String dquote "").

(** [json.dumps(v)]: items separated by a comma and a space, keys from
    values by a colon and a space. *)
Fixpoint dumps (v : PyVal) : string :=
  match v with
  | PNone => "null"
  | PBool true => "true"
  | PBool false => "false"
  | PInt z => str_of_int z
  | PStr s => dumps_str s
  | PList l => "[" ++ join ", " (map dumps l) ++ "]"
  | PDict d =>
      "{" ++ join ", " (map (fun kv => dumps_str (fst kv) ++ ": " ++ dumps (snd kv)) d) ++ "}"
  end.

End Json.

(** ** [portainer/utils/utils.py] *)

Module Utils.
Import Py.

(** An element of the list comprehension of [convert_filters]:
    [str(item) if not isinstance(item, str) else item] *)
Definition stringify_item (item : PyVal) : string :=
  match item with
  | PStr s => s
  | _ => str item
  end.

(** The list stored under a key by one iteration of the loop of
    [convert_filters], from the value [v] of that key. *)
Definition filter_strings (v : PyVal) : list string :=
  let v := if is_bool v then (if truthy v then PStr "true" else PStr "false") else v in
  let v := match v with PList items => items | _ => [v] end in
  map stringify_item v.

(** One iteration of the loop on the pair [(k, v)]. *)
Definition convert_filters_step (result : Dict (list string)) (kv : string * PyVal)
  : Dict (list string) :=
  dict_set result (fst kv) (filter_strings (snd kv)).

(** The dict [result] at the end of the loop. *)
Definition convert_filters_result (filters : Dict PyVal) : Dict (list string) :=
  fold_left convert_filters_step filters [].

(** The dict [result] as the Python value handed to [json.dumps]. *)
Definition strings_value (result : Dict (list string)) : PyVal :=
  PDict (map (fun kv => (fst kv, PList (map PStr (snd kv)))) result).

Definition convert_filters (filters : Dict PyVal) : string :=
  Json.dumps (strings_value (convert_filters_result filters)).

End Utils.

(** ** Exceptions and results *)

Module Exc.

(** The exception classes that occur; a class stands for itself and its
    subclasses. *)
Inductive ExnClass : Type :=
| RuntimeError | NameError | TypeError | KeyError | AttributeError
| UnicodeDecodeError | JSONDecodeError | ContentTypeError
| asyncio_TimeoutError | aiohttp_ClientError
| NullResource | DeprecatedMethod | NotFound | DockerException | Exception.

(** A raised exception: its class, its message and, for
    [raise ... from exception], the class of its cause. *)
Record Exn : Type := mkExn {
  exn_class : ExnClass;
  exn_msg : string;
  exn_cause : option ExnClass
}.

Definition class_eqb (a b : ExnClass) : bool :=
  match a, b with
  | RuntimeError, RuntimeError | NameError, NameError | TypeError, TypeError
  | KeyError, KeyError | AttributeError, AttributeError
  | UnicodeDecodeError, UnicodeDecodeError | JSONDecodeError, JSONDecodeError
  | ContentTypeError, ContentTypeError
  | asyncio_TimeoutError, asyncio_TimeoutError
  | aiohttp_ClientError, aiohttp_ClientError
  | NullResource, NullResource | DeprecatedMethod, DeprecatedMethod
  | NotFound, NotFound | DockerException, DockerException
  | Exception, Exception => true
  | _, _ => false
  end.

(** The result of evaluating an expression: a value or a raised exception. *)
Inductive Res (A : Type) : Type :=
| Ok (a : A)
| Raise (e : Exn).
Arguments Ok {A} a.
Arguments Raise {A} e.

Definition exn (c : ExnClass) (msg : string) : Exn := mkExn c msg None.

Definition res_bind {A B} (r : Res A) (k : A -> Res B) : Res B :=
  match r with
  | Ok a => k a
  | Raise e => Raise e
  end.

Definition is_ok {A} (r : Res A) : bool :=
  match r with Ok _ => true | Raise _ => false end.

End Exc.

(** ** The HTTP layer the client talks to ([aiohttp], [yarl]) *)

Module Http.
Import Py Exc.

(** The arguments of [URL.build]. *)
Record URL : Type := mkURL {
  url_scheme : string;
  url_host : PyVal;
  url_port : PyVal;
  url_path : string;
  url_query : Dict PyVal
}.

(** The arguments of [session.request], with the timeout of the
    enclosing [async_timeout.timeout] block (seconds). *)
Record Request : Type := mkRequest {
  method : string;
  url : URL;
  json : PyVal;
  headers : Dict string;
  ssl : bool;
  timeout : Z
}.

Record Response : Type := mkResponse {
  status : Z;
  response_headers : Dict string;
  body : string
}.

(** What awaiting [session.request] gives: a response, or an exception
    raised inside the [try] block. *)
Inductive Transport : Type :=
| Responded (r : Response)
| Failed (e : Exn).

Definition Session : Type := nat.

Definition lower_char (c : ascii) : ascii :=
  let n := N_of_ascii c in
  if ((65 <=? n) && (n <=? 90))%N%bool then ascii_of_N (n + 32) else c.

Fixpoint lower (s : string) : string :=
  match s with
  | EmptyString => ""
  | String c s' => String (lower_char c) (lower s')
  end.

(** [headers.get(name, default)] on a case-insensitive multidict. *)
Fixpoint headers_get (h : Dict string) (name default : string) : string :=
  match h with
  | [] => default
  | (k, v) :: rest =>
      if (lower k =? lower name)%string then v else headers_get rest name default
  end.

(** The services of the runtime that are not code of this library: the
    server behind the network, the wall clock, and the decoders of
    [bytes.decode], [response.json] and [response.text]. *)
Class Platform : Type := {
  Env : Type;
  (** [datetime.now()], in microseconds *)
  datetime_now : Env -> Z * Env;
  (** awaiting [session.request(...)] under the timeout *)
  session_request : Session -> Request -> Env -> Transport * Env;
  (** [contents.decode("utf8")] *)
  bytes_decode_utf8 : string -> Res string;
  (** [await response.json(content_type=...)] *)
  response_json : Response -> string -> Res PyVal;
  (** [await response.text()] *)
  response_text : Response -> Res string
}.

End Http.

(** ** [portainer/api/client.py] *)

Module Client.
Import Py Exc Http.

(** [class ActionResponse] and the other two kinds of value that
    [_request] returns: the decoded JSON body and the text body. *)
Inductive Outcome : Type :=
| ActionResponse (success : bool) (message : option string)
| JsonPayload (payload : PyVal)
| TextPayload (text : string).

(** [ActionResponse.__str__] *)
Definition ActionResponse_str (success : bool) (message : option string) : Res string :=
  if success then Ok "Successfully executed action"
  else match message with
       | Some m => Ok ("Failed executing action because " ++ m)
       | None => Raise (exn TypeError "can only concatenate str (not NoneType) to str")
       end.

(** The attributes of an [APIClient] object. *)
Record APIClient : Type := mkAPIClient {
  host : PyVal;
  port : PyVal;
  _username : PyVal;
  _password : PyVal;
  _token : PyVal;
  _token_expiry : option Z;
  _session : option Session;
  _close_session : bool;
  env_id : PyVal
}.

(** One call of [session.request], as the trace keeps it. *)
Record Exchange : Type := mkExchange {
  via : Session;
  sent : Request;
  got : Transport
}.

Section WithPlatform.
Context {P : Platform}.

(** The world outside the client object: the platform's state, the
    HTTP sessions created and closed so far, and the trace of the
    network calls made. *)
Record World : Type := mkWorld {
  env : Env;
  next_session : Session;
  closed_sessions : list Session;
  trace : list Exchange
}.

Record State : Type := mkState {
  self : APIClient;
  world : World
}.

(** A method of the client: it reads and updates the client and the
    world, and returns or raises. *)
Definition M (A : Type) : Type := State -> Res A * State.

Definition ret {A} (a : A) : M A := fun st => (Ok a, st).

Definition bind {A B} (c : M A) (k : A -> M B) : M B :=
  fun st =>
    match c st with
    | (Ok a, st') => k a st'
    | (Raise e, st') => (Raise e, st')
    end.

Definition raise {A} (e : Exn) : M A := fun st => (Raise e, st).

Definition lift {A} (r : Res A) : M A := fun st => (r, st).

Definition get_self : M APIClient := fun st => (Ok (self st), st).

Definition set_self (f : APIClient -> APIClient) : M unit :=
  fun st => (Ok tt, mkState (f (self st)) (world st)).

(** [try: body except cls: handler] *)
Definition try_except {A} (body : M A) (cls : ExnClass) (handler : Exn -> M A) : M A :=
  fun st =>
    match body st with
    | (Ok a, st') => (Ok a, st')
    | (Raise e, st') =>
        if class_eqb (exn_class e) cls then handler e st' else (Raise e, st')
    end.

(** [datetime.now()] *)
Definition now : M Z :=
  fun st =>
    let w := world st in
    let (t, e') := datetime_now (env w) in
    (Ok t, mkState (self st)
             (mkWorld e' (next_session w) (closed_sessions w) (trace w))).

(** [await session.request(...)]: the platform answers and the
    exchange is appended to the trace. *)
Definition send (s : Session) (req : Request) : M Transport :=
  fun st =>
    let w := world st in
    let (t, e') := session_request s req (env w) in
    (Ok t, mkState (self st)
             (mkWorld e' (next_session w) (closed_sessions w)
                (trace w ++ [mkExchange s req t])%list)).

End WithPlatform.

Declare Scope py_scope.
Delimit Scope py_scope with py.
Notation "x <- c ;; k" := (bind c (fun x => k))
  (at level 61, c at next level, right associativity) : py_scope.
Notation "c ;; k" := (bind c (fun _ => k))
  (at level 61, right associativity) : py_scope.
Local Open Scope py_scope.

Section Methods.
Context {P : Platform}.

(** [timedelta(hours=h, minutes=m)], in microseconds *)
Definition timedelta (hours minutes : Z) : Z :=
  ((hours * 3600 + minutes * 60) * 1000000)%Z.

(** [res[key]] for a Python value *)
Definition getitem (v : PyVal) (key : string) : Res PyVal :=
  match v with
  | PDict d =>
      match dict_get d key with
      | Some x => Ok x
      | None => Raise (exn KeyError key)
      end
  | PList _ => Raise (exn TypeError "list indices must be integers or slices, not str")
  | PStr _ => Raise (exn TypeError "string indices must be integers")
  | _ => Raise (exn TypeError "object is not subscriptable")
  end.

(** [res[key]] for what [_request] returned *)
Definition outcome_getitem (res : Outcome) (key : string) : Res PyVal :=
  match res with
  | JsonPayload v => getitem v key
  | TextPayload _ => Raise (exn TypeError "string indices must be integers")
  | ActionResponse _ _ =>
      Raise (exn TypeError "'ActionResponse' object is not subscriptable")
  end.

Definition set_token (v : PyVal) (c : APIClient) : APIClient :=
  mkAPIClient (host c) (port c) (_username c) (_password c) v
    (_token_expiry c) (_session c) (_close_session c) (env_id c).

Definition set_token_expiry (t : option Z) (c : APIClient) : APIClient :=
  mkAPIClient (host c) (port c) (_username c) (_password c) (_token c)
    t (_session c) (_close_session c) (env_id c).

Definition set_session (s : option Session) (c : APIClient) : APIClient :=
  mkAPIClient (host c) (port c) (_username c) (_password c) (_token c)
    (_token_expiry c) s (_close_session c) (env_id c).

Definition set_close_session (b : bool) (c : APIClient) : APIClient :=
  mkAPIClient (host c) (port c) (_username c) (_password c) (_token c)
    (_token_expiry c) (_session c) b (env_id c).

(** [APIClient.__init__]; [aiohttp.ClientSession()] takes the next
    session handle of the world. *)
Definition __init__ (host port env_id username password : PyVal)
    (session : option Session) (w : World) : APIClient * World :=
  let self :=
    mkAPIClient host port username password PNone None None false env_id in
  match _session self with
  | None =>
      (set_close_session true (set_session (Some (next_session w)) self),
       mkWorld (env w) (S (next_session w)) (closed_sessions w) (trace w))
  | Some _ => (self, w)
  end.

(** The dict comprehension that filters out [None] query items. *)
Definition request_query (query : Dict PyVal) : Dict PyVal :=
  fold_left
    (fun acc kv => if negb (is_none (snd kv)) then dict_set acc (fst kv) (snd kv) else acc)
    query [].

Definition request_path (self : APIClient) (abs_path : bool) (path : string) : string :=
  if abs_path then "/api" ++ path else "/api/endpoints/1/docker" ++ path.

Definition request_headers (token : PyVal) : Dict string :=
  let headers := [("Accept", "application/json")] in
  if negb (is_none token)
  then dict_set headers "Authorization" ("Bearer " ++ str token)
  else headers.

(** The part of [_request] after the [try] block. *)
Definition handle_response (response : Response) : Res Outcome :=
  let content_type := headers_get (response_headers response) "Content-Type" "" in
  if ((status response / 100 =? 4) || (status response / 100 =? 5))%Z%bool then
    res_bind (bytes_decode_utf8 (body response))
      (fun contents => Ok (ActionResponse false (Some contents)))
  else if (status response =? 204)%Z then
    Ok (ActionResponse true None)
  else if contains "application/json" content_type then
    res_bind (response_json response "application/json")
      (fun payload => Ok (JsonPayload payload))
  else
    res_bind (response_text response) (fun text => Ok (TextPayload text)).

Definition timeout_message : string := "Timeout occurred while connecting to Docker".
Definition communication_message : string :=
  "Error occurred while communicating with Docker".

(** The two [except] clauses of [_request]. *)
Definition translate_failure (e : Exn) : Exn :=
  if class_eqb (exn_class e) asyncio_TimeoutError then
    mkExn RuntimeError timeout_message (Some (exn_class e))
  else if class_eqb (exn_class e) aiohttp_ClientError then
    mkExn RuntimeError communication_message (Some (exn_class e))
  else e.

Definition build_request (self : APIClient) (path : string) (abs_path : bool)
    (query : Dict PyVal) (data : PyVal) (method : string) (token : PyVal) : Request :=
  let query := request_query query in
  let path := request_path self abs_path path in
  let url := mkURL "http" (host self) (port self) path query in
  let headers := request_headers token in
  mkRequest method url data headers true 60.

Definition _request (path : string) (abs_path : bool) (query : Dict PyVal)
    (data : PyVal) (method : string) (token : PyVal) : M Outcome :=
  self <- get_self ;;
  let req := build_request self path abs_path query data method token in
  match _session self with
  | None => raise (exn AttributeError "'NoneType' object has no attribute 'request'")
  | Some session =>
      t <- send session req ;;
      match t with
      | Failed e => raise (translate_failure e)
      | Responded response => lift (handle_response response)
      end
  end.

(** The test [self._token is None or datetime.now() >= self._token_expiry]. *)
Definition token_is_stale : M bool :=
  self <- get_self ;;
  if is_none (_token self) then ret true
  else
    t <- now ;;
    match _token_expiry self with
    | Some expiry => ret (expiry <=? t)%Z
    | None =>
        raise (exn TypeError
                 "'>=' not supported between instances of 'datetime.datetime' and 'NoneType'")
    end.

(** [_refresh_token]; its [print] to the standard output is left out. *)
Definition _refresh_token : M unit :=
  stale <- token_is_stale ;;
  if (stale : bool) then
    self <- get_self ;;
    let data := PDict [("username", _username self); ("password", _password self)] in
    res <- _request "/auth" true [] data "POST" PNone ;;
    jwt <- lift (outcome_getitem res "jwt") ;;
    set_self (set_token jwt) ;;
    t <- now ;;
    set_self (set_token_expiry (Some (t + timedelta 7 59)%Z))
  else ret tt.

(** The decorator [auth] of utils/decorators.py applied to a method
    that takes the keyword [token]. *)
Definition auth {A} (f : PyVal -> M A) : M A :=
  _refresh_token ;;
  self <- get_self ;;
  f (_token self).

Definition _get (path : string) (query : Dict PyVal) : M Outcome :=
  auth (fun token => _request path false query PNone "GET" token).

Definition _post (path : string) (data : PyVal) (query : Dict PyVal) : M Outcome :=
  auth (fun token => _request path false query data "POST" token).

Definition close : M unit :=
  fun st =>
    let w := world st in
    match _session (self st) with
    | Some session =>
        if _close_session (self st) then
          (Ok tt, mkState (self st)
                    (mkWorld (env w) (next_session w)
                       (session :: closed_sessions w) (trace w)))
        else (Ok tt, st)
    | None => (Ok tt, st)
    end.

End Methods.

End Client.

(** ** [portainer/utils/decorators.py] *)

Module Decorators.
Import Py Exc Http Client.
Local Open Scope py_scope.

(** The names bound at module level in utils/decorators.py: its one
    import, [from . import utils], and the three functions it defines. *)
Definition module_names : list string :=
  ["utils"; "auth"; "check_resource"; "minimum_version"].

(** Evaluating a global name in a module whose bound names are [names]. *)
Definition load_name (names : list string) (name : string) : Res unit :=
  if existsb (String.eqb name) names then Ok tt
  else Raise (exn NameError ("name '" ++ name ++ "' is not defined")).

(** What [raise errors.NullResource('Resource ID was not provided')]
    raises inside utils/decorators.py. *)
Definition raised_for_null_resource : Exn :=
  match load_name module_names "errors" with
  | Ok _ => exn NullResource "Resource ID was not provided"
  | Raise e => e
  end.

Section WithPlatform.
Context {P : Platform}.

(** [check_resource(resource_name)(f)] called with the positional
    [resource_id] and the keyword arguments [kwargs]; [f] receives the
    resolved identifier and the remaining keyword arguments. *)
Definition check_resource {A} (resource_name : string)
    (f : PyVal -> Dict PyVal -> M A)
    (resource_id : PyVal) (kwargs : Dict PyVal) : M A :=
  let '(resource_id, kwargs) :=
    if (is_none resource_id && truthy (dict_get_default kwargs resource_name PNone))%bool
    then (dict_get_default kwargs resource_name PNone, dict_remove kwargs resource_name)
    else (resource_id, kwargs) in
  let resource_id :=
    match resource_id with
    | PDict d => dict_get_default d "Id" (dict_get_default d "ID" PNone)
    | _ => resource_id
    end in
  if negb (truthy resource_id) then raise raised_for_null_resource
  else f resource_id kwargs.

End WithPlatform.

End Decorators.

(** ** [portainer/api/container.py] *)

Module ContainerApi.
Import Py Exc Http Client Decorators.
Local Open Scope py_scope.

(** The names bound at module level in api/container.py. *)
Definition module_names : list string := ["datetime"; "utils"; "ContainerApiMixin"].

(** [int(signal)] for a value that is not a [str]. *)
Definition int_of (v : PyVal) : Res Z :=
  match v with
  | PInt z => Ok z
  | PBool b => Ok (if b then 1 else 0)%Z
  | _ => Raise (exn TypeError
                  "int() argument must be a string, a bytes-like object or a real number")
  end.

(** The dict [params] that [kill] builds from [signal]. *)
Definition kill_params (signal : PyVal) : Res (Dict PyVal) :=
  let params : Dict PyVal := [] in
  if negb (is_none signal) then
    res_bind (if negb (is_str signal)
              then res_bind (int_of signal) (fun z => Ok (PInt z))
              else Ok signal)
      (fun signal => Ok (dict_set params "signal" signal))
  else Ok params.

(** [x['Id'][:12]] *)
Definition slice12 (v : PyVal) : Res PyVal :=
  match v with
  | PStr s => Ok (PStr (take 12 s))
  | PList l => Ok (PList (firstn 12 l))
  | _ => Raise (exn TypeError "object is not subscriptable")
  end.

(** [x[key] = v] *)
Definition setitem (x : PyVal) (key : string) (v : PyVal) : Res PyVal :=
  match x with
  | PDict d => Ok (PDict (dict_set d key v))
  | _ => Raise (exn TypeError "object does not support item assignment")
  end.

Fixpoint map_res {A B} (f : A -> Res B) (l : list A) : Res (list B) :=
  match l with
  | [] => Ok []
  | a :: rest =>
      res_bind (f a) (fun b => res_bind (map_res f rest) (fun bs => Ok (b :: bs)))
  end.

Fixpoint chars (s : string) : list PyVal :=
  match s with
  | EmptyString => []
  | String c s' => PStr (String c "") :: chars s'
  end.

(** The items that [for x in res] visits. *)
Definition iterate (res : Outcome) : Res (list PyVal) :=
  match res with
  | JsonPayload (PList l) => Ok l
  | JsonPayload (PDict d) => Ok (map (fun kv => PStr (fst kv)) d)
  | JsonPayload (PStr s) => Ok (chars s)
  | TextPayload s => Ok (chars s)
  | JsonPayload _ => Raise (exn TypeError "object is not iterable")
  | ActionResponse _ _ => Raise (exn TypeError "'ActionResponse' object is not iterable")
  end.

Section WithPlatform.
Context {P : Platform}.

(** A method that takes no keyword beyond those already bound. *)
Definition no_more_kwargs (kwargs : Dict PyVal) : M unit :=
  match kwargs with
  | [] => ret tt
  | (k, _) :: _ =>
      raise (exn TypeError ("got an unexpected or repeated keyword argument '" ++ k ++ "'"))
  end.

Definition containers (quiet all trunc latest since before limit size filters : PyVal)
  : M Outcome :=
  let params : Dict PyVal :=
    [("limit", if truthy latest then PInt 1 else limit);
     ("all", if truthy all then PInt 1 else PInt 0);
     ("size", if truthy size then PInt 1 else PInt 0);
     ("trunc_cmd", if truthy trunc then PInt 1 else PInt 0);
     ("since", since);
     ("before", before)] in
  params <-
    (if truthy filters then
       match filters with
       | PDict d => ret (dict_set params "filters" (PStr (Utils.convert_filters d)))
       | _ => raise (exn AttributeError "object has no attribute 'items'")
       end
     else ret params) ;;
  res <- _get "/containers/json" params ;;
  if truthy quiet then
    items <- lift (iterate res) ;;
    ids <- lift (map_res (fun x => res_bind (getitem x "Id")
                                     (fun i => Ok (PDict [("Id", i)]))) items) ;;
    ret (JsonPayload (PList ids))
  else if truthy trunc then
    items <- lift (iterate res) ;;
    items' <- lift (map_res (fun x => res_bind (getitem x "Id") (fun i =>
                                      res_bind (slice12 i) (fun i' =>
                                      setitem x "Id" i'))) items) ;;
    match res with
    | JsonPayload (PList _) => ret (JsonPayload (PList items'))
    | _ => ret res
    end
  else ret res.

Definition inspect_container : PyVal -> Dict PyVal -> M Outcome :=
  check_resource "container" (fun container kwargs =>
    no_more_kwargs kwargs ;;
    _get ("/containers/" ++ str container ++ "/json") []).

Definition kill : PyVal -> Dict PyVal -> M Outcome :=
  check_resource "container" (fun container kwargs =>
    let signal := dict_get_default kwargs "signal" PNone in
    no_more_kwargs (dict_remove kwargs "signal") ;;
    params <- lift (kill_params signal) ;;
    _post ("/containers/" ++ str container ++ "/kill") PNone params).

Definition pause : PyVal -> Dict PyVal -> M Outcome :=
  check_resource "container" (fun container kwargs =>
    no_more_kwargs kwargs ;;
    _post ("/containers/" ++ str container ++ "/pause") PNone []).

Definition restart : PyVal -> Dict PyVal -> M Outcome :=
  check_resource "container" (fun container kwargs =>
    let timeout := dict_get_default kwargs "timeout" (PInt 10) in
    no_more_kwargs (dict_remove kwargs "timeout") ;;
    let params := [("t", timeout)] in
    _post ("/containers/" ++ str container ++ "/restart") PNone params).

Definition start : PyVal -> Dict PyVal -> M Outcome :=
  check_resource "container" (fun container kwargs =>
    match dict_get kwargs "container" with
    | Some _ => raise (exn TypeError "got multiple values for argument 'container'")
    | None =>
        match kwargs with
        | _ :: _ =>
            match load_name module_names "errors" with
            | Ok _ => raise (exn DeprecatedMethod
                               "Providing configuration in the start() method is no longer supported.")
            | Raise e => raise e
            end
        | [] => _post ("/containers/" ++ str container ++ "/start") PNone []
        end
    end).

Definition stats : PyVal -> Dict PyVal -> M Outcome :=
  check_resource "container" (fun container kwargs =>
    no_more_kwargs kwargs ;;
    _get ("/containers/" ++ str container ++ "/stats") [("stream", PStr "false")]).

Definition stop : PyVal -> Dict PyVal -> M Outcome :=
  check_resource "container" (fun container kwargs =>
    let timeout := dict_get_default kwargs "timeout" (PInt 10) in
    no_more_kwargs (dict_remove kwargs "timeout") ;;
    let params := [("t", timeout)] in
    _post ("/containers/" ++ str container ++ "/stop") PNone params).

Definition top : PyVal -> Dict PyVal -> M Outcome :=
  check_resource "container" (fun container kwargs =>
    let ps_args := dict_get_default kwargs "ps_args" PNone in
    no_more_kwargs (dict_remove kwargs "ps_args") ;;
    let params : Dict PyVal :=
      if negb (is_none ps_args) then dict_set [] "ps_args" ps_args else [] in
    _get ("/containers/" ++ str container ++ "/top") params).

End WithPlatform.

End ContainerApi.

(** ** [portainer/models/containers.py] *)

Module Models.
Import Py Exc Http Client ContainerApi.
Local Open Scope py_scope.

(** A [Container] object, as far as listing is concerned: its cached
    attribute dict. *)
Record Container : Type := mkContainer {
  attrs : Dict PyVal
}.

(** Modelled from the spec: [Collection.prepare_model] and the class
    [Model] of models/resource.py, and [errors.NotFound], are not among
    the sources.  By the specification the entity attributes are a mapping
    snapshot of the server-reported fields of one resource, and the
    Model/Collection layer derives the not-found condition from a server
    rejection (a Failure-with-message outcome) of the lookup of one
    resource id.  Any other value cannot become an entity. *)
Definition prepare_model (attrs : Outcome) : Res Container :=
  match attrs with
  | JsonPayload (PDict d) => Ok (mkContainer d)
  | ActionResponse false message =>
      Raise (exn NotFound match message with Some m => m | None => "" end)
  | _ => Raise (exn Exception "Can't create Container from the given attributes")
  end.

Section WithPlatform.
Context {P : Platform}.

(** [ContainerCollection.get] *)
Definition get (container_id : PyVal) : M Container :=
  resp <- inspect_container container_id [] ;;
  lift (prepare_model resp).

(** The body of the [for r in resp] loop of [ContainerCollection.list]
    with [containers] the list built so far. *)
Definition list_step (ignore_removed : bool) (containers : list Container) (r : PyVal)
  : M (list Container) :=
  try_except
    (container_id <- lift (getitem r "Id") ;;
     c <- get container_id ;;
     ret (containers ++ [c])%list)
    NotFound
    (fun e => if negb ignore_removed then raise e else ret containers).

Fixpoint list_loop (ignore_removed : bool) (resp : list PyVal)
    (containers : list Container) : M (list Container) :=
  match resp with
  | [] => ret containers
  | r :: rest =>
      containers' <- list_step ignore_removed containers r ;;
      list_loop ignore_removed rest containers'
  end.

Fixpoint prepare_models (resp : list PyVal) : Res (list Container) :=
  match resp with
  | [] => Ok []
  | r :: rest =>
      res_bind (prepare_model (JsonPayload r)) (fun c =>
      res_bind (prepare_models rest) (fun cs => Ok (c :: cs)))
  end.

(** [ContainerCollection.list]; the method is named [list_] here
    because [list] is the type of lists. *)
Definition list_ (all before filters limit since : PyVal)
    (sparse ignore_removed : bool) : M (list Container) :=
  resp <- containers (PBool false) all (PBool false) (PBool false)
            since before limit (PBool false) filters ;;
  items <- lift (iterate resp) ;;
  if sparse then lift (prepare_models items)
  else list_loop ignore_removed items [].

End WithPlatform.

End Models.

(** ** The properties of [class Container] in [portainer/models/containers.py] *)

Module ContainerObject.
Import Py Exc Client Models.

(** [s.lstrip('/')] *)
Fixpoint lstrip_slash (s : string) : string :=
  match s with
  | EmptyString => ""
  | String c s' => if Ascii.eqb c "/" then lstrip_slash s' else s
  end.

(** The property [Container.name]; a method that falls off its end
    returns [None]. *)
Definition name (self : Container) : Res PyVal :=
  if negb (is_none (dict_get_default (attrs self) "Name" PNone)) then
    res_bind (getitem (PDict (attrs self)) "Name") (fun v =>
      match v with
      | PStr s => Ok (PStr (lstrip_slash s))
      | _ => Raise (exn AttributeError "object has no attribute 'lstrip'")
      end)
  else Ok PNone.

Definition labels_message : string :=
  "Label data is not available for sparse objects. Call reload() to retrieve all information".

(** The property [Container.labels]: the two statements of the [try]
    block, then the [except KeyError] clause. *)
Definition labels (self : Container) : Res PyVal :=
  match
    res_bind (getitem (PDict (attrs self)) "Config") (fun config =>
      match config with
      | PDict d =>
          let result := dict_get_default d "Labels" PNone in
          Ok (if truthy result then result else PDict [])
      | _ => Raise (exn AttributeError "object has no attribute 'get'")
      end)
  with
  | Ok v => Ok v
  | Raise e =>
      if class_eqb (exn_class e) KeyError then Raise (exn DockerException labels_message)
      else Raise e
  end.

(** The property [Container.state_dict] *)
Definition state_dict (self : Container) : Res PyVal :=
  res_bind (getitem (PDict (attrs self)) "State") (fun state =>
    if is_dict state then getitem (PDict (attrs self)) "State" else Ok PNone).

(** The property [Container.status] *)
Definition status (self : Container) : Res PyVal :=
  res_bind (getitem (PDict (attrs self)) "State") (fun state =>
    if is_dict state then
      res_bind (getitem (PDict (attrs self)) "State") (fun state => getitem state "Status")
    else getitem (PDict (attrs self)) "Status").

(** The property [Container.ports] *)
Definition ports (self : Container) : Res PyVal :=
  match dict_get_default (attrs self) "NetworkSettings" (PDict []) with
  | PDict d => Ok (dict_get_default d "Ports" (PDict []))
  | _ => Raise (exn AttributeError "object has no attribute 'get'")
  end.

(** The property [Container.started_at] *)
Definition started_at (self : Container) : Res PyVal :=
  res_bind (getitem (PDict (attrs self)) "State") (fun state =>
    if is_dict state then
      res_bind (getitem (PDict (attrs self)) "State") (fun state => getitem state "StartedAt")
    else Ok PNone).

End ContainerObject.

(** ** [compare_version] and [version_lt] of [portainer/utils/utils.py] *)

Module Versions.
Import Py Exc.

(** [packaging.version.Version]: the constructor, which raises on a text
    that is no version, and the comparisons [==] and [>]. *)
Class Packaging : Type := {
  Version : Type;
  parse : string -> Res Version;
  version_eq : Version -> Version -> bool;
  version_gt : Version -> Version -> bool
}.

Section WithPackaging.
Context {K : Packaging}.

Definition compare_version (v1 v2 : string) : Res Z :=
  res_bind (parse v1) (fun s1 =>
  res_bind (parse v2) (fun s2 =>
    if version_eq s1 s2 then Ok 0%Z
    else if version_gt s1 s2 then Ok (-1)%Z
    else Ok 1%Z)).

Definition version_lt (v1 v2 : string) : Res bool :=
  res_bind (compare_version v1 v2) (fun c => Ok (0 <? c)%Z).

End WithPackaging.

End Versions.

(** ** A scripted platform, to run the model on concrete traffic *)

Module Sim.
Import Py Exc Http Client.

(** The clock reading and the answers the server will give, in order. *)
Record SimEnv : Type := mkSimEnv {
  clock : Z;
  answers : list Transport
}.

(** The JSON texts this platform can decode. *)
Definition known_values : list PyVal :=
  [ PDict [("jwt", PStr "tok")];
    PList [PDict [("Id", PStr "c1")]; PDict [("Id", PStr "c2")]];
    PDict [("Id", PStr "c1"); ("Name", PStr "/web")];
    PDict [("Id", PStr "c2"); ("Name", PStr "/db")];
    PDict [("Id", PStr "abc")] ].

Definition loads (text : string) : Res PyVal :=
  match dict_get (map (fun v => (Json.dumps v, v)) known_values) text with
  | Some v => Ok v
  | None => Raise (exn JSONDecodeError "Expecting value")
  end.

(** Every clock reading and every request takes one second. *)
Definition platform : Platform := {|
  Env := SimEnv;
  datetime_now := fun e => (clock e, mkSimEnv (clock e + 1000000) (answers e));
  session_request := fun _ _ e =>
    match answers e with
    | [] => (Failed (exn asyncio_TimeoutError ""), mkSimEnv (clock e + 1000000) [])
    | a :: rest => (a, mkSimEnv (clock e + 1000000) rest)
    end;
  bytes_decode_utf8 := fun b => Ok b;
  response_json := fun r _ => loads (body r);
  response_text := fun r => Ok (body r)
|}.

Definition json_response (code : Z) (v : PyVal) : Response :=
  mkResponse code [("Content-Type", "application/json")] (Json.dumps v).

Definition text_response (code : Z) (text : string) : Response :=
  mkResponse code [("Content-Type", "text/plain; charset=utf-8")] text.

Definition client (env_id : PyVal) (token : PyVal) (expiry : option Z) : APIClient :=
  mkAPIClient (PStr "localhost") (PInt 9000) (PStr "admin") (PStr "secret")
    token expiry (Some 0%nat) true env_id.

Definition state (c : APIClient) (time : Z) (script : list Transport)
  : State (P := platform) :=
  mkState c (mkWorld (P := platform) (mkSimEnv time script) 1%nat [] []).

(** A client that holds a token good for one hour, and one that holds
    none. *)
Definition held : APIClient := client (PInt 1) (PStr "tok") (Some 3600000000).
Definition fresh_client : APIClient := client (PInt 1) PNone None.

(** The state at time 0 in which the server will give the one answer [t]. *)
Definition answered (t : Transport) : State (P := platform) := state held 0 [t].

(** The end-to-end scenario of the specification: the credential
    exchange, the summary listing of [c1] and [c2], the inspect of [c1],
    and a 404 for the inspect of [c2]. *)
Definition listing_script : list Transport :=
  [ Responded (json_response 200 (PDict [("jwt", PStr "tok")]));
    Responded (json_response 200
                 (PList [PDict [("Id", PStr "c1")]; PDict [("Id", PStr "c2")]]));
    Responded (json_response 200 (PDict [("Id", PStr "c1"); ("Name", PStr "/web")]));
    Responded (text_response 404 "no such container") ].

Definition listing_start : State (P := platform) := state fresh_client 0 listing_script.

(** A version library that knows four release numbers of the form
    [1.n], compared by [n]. *)
Definition packaging : Versions.Packaging := {|
  Versions.Version := nat;
  Versions.parse := fun text =>
    match dict_get [("1.9", 9%nat); ("1.10", 10%nat); ("1.24", 24%nat); ("1.41", 41%nat)] text with
    | Some n => Ok n
    | None => Raise (exn Exception ("Invalid version: '" ++ text ++ "'"))
    end;
  Versions.version_eq := Nat.eqb;
  Versions.version_gt := fun a b => Nat.ltb b a
|}.

End Sim.

(** ** The specification's side of the comparisons *)

Module Spec.
Import Py Exc Http Client ContainerApi Models.

(** The effective request path in the words of the specification:
    [/api] followed by the path for an absolute descriptor, otherwise
    [/api/endpoints/{endpoint_id}/docker] followed by the path, with the
    endpoint id the client was configured with. *)
Definition spec_effective_path (self : APIClient) (abs_path : bool) (path : string)
  : string :=
  if abs_path then "/api" ++ path
  else "/api/endpoints/" ++ str (env_id self) ++ "/docker" ++ path.

(** The rendering of one filter item in the words of the specification:
    a boolean becomes [true] or [false] in lower case wherever it
    stands, any other value its string representation. *)
Definition spec_render_item (item : PyVal) : string :=
  match item with
  | PBool true => "true"
  | PBool false => "false"
  | _ => str item
  end.

Definition spec_filter_strings (v : PyVal) : list string :=
  match v with
  | PList items => map spec_render_item items
  | _ => [spec_render_item v]
  end.

(** The platform [P] with another decoder behind [response.json]. *)
Definition with_response_json (P : Platform)
    (decoder : Response -> string -> Res PyVal) : Platform :=
  {| Env := @Env P;
     datetime_now := @datetime_now P;
     session_request := @session_request P;
     bytes_decode_utf8 := @bytes_decode_utf8 P;
     response_json := decoder;
     response_text := @response_text P |}.

(** A call of a resource operation without a resolvable identifier: no
    id argument (and no usable keyword), a dict that has neither [Id]
    nor [ID], or an id that is empty or otherwise false. *)
Definition unresolvable (resource_name : string) (resource_id : PyVal)
    (kwargs : Dict PyVal) : Prop :=
  (resource_id = PNone /\ truthy (dict_get_default kwargs resource_name PNone) = false)
  \/ (exists d, resource_id = PDict d /\ dict_get d "Id" = None /\ dict_get d "ID" = None)
  \/ (is_dict resource_id = false /\ resource_id <> PNone /\ truthy resource_id = false).

(** The path of the inspect request for the container [id]. *)
Definition inspect_path (id : string) : string :=
  "/api/endpoints/1/docker/containers/" ++ id ++ "/json".

(** An inspect outcome that is a mapping of attributes, and one that is
    a server rejection. *)
Definition is_entity (o : Outcome) : Prop := exists d, o = JsonPayload (PDict d).
Definition is_rejection (o : Outcome) : Prop := exists m, o = ActionResponse false m.

(** The entities of the answers that are mappings, in order. *)
Definition entities (answers : list (string * Outcome)) : list Container :=
  flat_map (fun io => match snd io with
                      | JsonPayload (PDict d) => [mkContainer d]
                      | _ => []
                      end) answers.

(** The query item [key=v], left out when [v] is [None]. *)
Definition optional_item (key : string) (v : PyVal) : Dict PyVal :=
  if is_none v then [] else [(key, v)].

(** The query item [filters] of a container listing: the encoded
    filters when they are a non-empty dict, nothing when they are false. *)
Definition filters_item (filters : PyVal) : Dict PyVal :=
  match filters with
  | PDict [] => []
  | PDict d => [("filters", PStr (Utils.convert_filters d))]
  | _ => []
  end.

(** The flag [1 if v else 0]. *)
Definition flag (v : PyVal) : PyVal := if truthy v then PInt 1 else PInt 0.

(** [x'] is the listing entry [x] with its [Id] cut to the first twelve
    items. *)
Definition truncated (x x' : PyVal) : Prop :=
  exists d i i',
    x = PDict d /\ dict_get d "Id" = Some i /\ slice12 i = Ok i'
    /\ x' = PDict (dict_set d "Id" i').

(** The text of [n] slashes. *)
Fixpoint slashes (n : nat) : string :=
  match n with
  | O => ""
  | S n' => String "/" (slashes n')
  end.

(** A held token has an expiry. *)
Definition token_has_expiry (c : APIClient) : Prop :=
  is_none (_token c) = false -> exists expiry, _token_expiry c = Some expiry.

(** A filter value in the form the encoder gives it: the list of its
    strings. *)
Definition canonical_filter (v : PyVal) : PyVal :=
  PList (map PStr (Utils.filter_strings v)).

(** [x] was sent on the session of the client [c], to its host and port
    over the scheme [http], with the fixed settings of [_request]. *)
Definition to_server (c : APIClient) (x : Exchange) : Prop :=
  _session c = Some (via x)
  /\ url_scheme (url (sent x)) = "http"
  /\ url_host (url (sent x)) = host c
  /\ url_port (url (sent x)) = port c
  /\ ssl (sent x) = true
  /\ timeout (sent x) = 60%Z
  /\ dict_get (headers (sent x)) "Accept" = Some "application/json".

Section WithPlatform.
Context {P : Platform}.

(** The state after one exchange on [session]: the platform has moved
    to [env'] and the exchange is the last entry of the trace. *)
Definition after_exchange (st : State) (session : Session) (req : Request)
    (t : Transport) (env' : Env) : State :=
  mkState (self st)
    (mkWorld env' (next_session (world st)) (closed_sessions (world st))
       (trace (world st) ++ [mkExchange session req t])%list).

(** The state [st] once the platform has moved to [env']. *)
Definition at_env (st : State) (env' : Env) : State :=
  mkState (self st)
    (mkWorld env' (next_session (world st)) (closed_sessions (world st))
       (trace (world st))).

(** The credential exchange: the request that [_refresh_token] makes. *)
Definition credential_request (self : APIClient) : Request :=
  build_request self "/auth" true []
    (PDict [("username", _username self); ("password", _password self)])
    "POST" PNone.

(** Whether an exchange is a credential exchange. *)
Definition is_credential_exchange (x : Exchange) : bool :=
  (url_path (url (sent x)) =? "/api/auth")%string.

(** [st'] comes after [st] in a run that kept the client's session and
    its closing mark: the trace has grown by exchanges made on that
    session. *)
Definition steady (st st' : State) : Prop :=
  _session (self st') = _session (self st)
  /\ _close_session (self st') = _close_session (self st)
  /\ exists added,
       trace (world st') = (trace (world st) ++ added)%list
       /\ Forall (fun x => _session (self st) = Some (via x)) added.

(** The exchanges that a computation added to the trace. *)
Definition new_exchanges (before after : State) : list Exchange :=
  skipn (List.length (trace (world before))) (trace (world after)).

(** The paths of the exchanges of [added] that are not credential
    exchanges, in order. *)
Definition resource_paths (added : list Exchange) : list string :=
  map (fun x => url_path (url (sent x)))
    (filter (fun x => negb (is_credential_exchange x)) added).

(** The eight operations decorated with [check_resource('container')]. *)
Definition resource_operations : list (PyVal -> Dict PyVal -> M Outcome) :=
  [inspect_container; kill; pause; restart; start; stats; stop; top].

(** [Inspections entries st answers st']: starting in [st], the inspect
    calls for the entries of a summary listing, made one after the
    other on the string [Id] of each entry, returned the outcomes
    [answers] and left the state [st']. *)
Inductive Inspections : list PyVal -> State -> list (string * Outcome) -> State -> Prop :=
| Inspections_nil (st : State) : Inspections [] st [] st
| Inspections_cons (r : PyVal) (rest : list PyVal) (id : string)
    (st st1 st2 : State) (o : Outcome) (os : list (string * Outcome)) :
    getitem r "Id" = Ok (PStr id) ->
    inspect_container (PStr id) [] st = (Ok o, st1) ->
    Inspections rest st1 os st2 ->
    Inspections (r :: rest) st ((id, o) :: os) st2.

(** The method, path and query of the last request of the trace. *)
Definition last_request (st : State) : option (string * string * Dict PyVal) :=
  match rev (trace (world st)) with
  | x :: _ => Some (method (sent x), url_path (url (sent x)), url_query (url (sent x)))
  | [] => None
  end.

(** What the last exchange of the trace got. *)
Definition last_answer (st : State) : option Transport :=
  match rev (trace (world st)) with
  | x :: _ => Some (got x)
  | [] => None
  end.

(** [st'] follows [st] by one call of an API method: the client keeps
    its server, its credentials and its session, and the trace has grown
    by at most one credential exchange followed by at most one other
    request. *)
Definition one_call (st st' : State) : Prop :=
  host (self st') = host (self st)
  /\ port (self st') = port (self st)
  /\ _username (self st') = _username (self st)
  /\ _password (self st') = _password (self st)
  /\ _session (self st') = _session (self st)
  /\ exists creds reqs,
       trace (world st') = (trace (world st) ++ creds ++ reqs)%list
       /\ (List.length creds <= 1)%nat
       /\ (List.length reqs <= 1)%nat
       /\ Forall (fun x => sent x = credential_request (self st) /\ to_server (self st) x) creds
       /\ Forall (fun x => is_credential_exchange x = false /\ to_server (self st) x) reqs.

(** A computation that leaves the state as it is. *)
Definition stateless {A : Type} (c : M A) : Prop := forall st, snd (c st) = st.

(** A computation whose effect on the state is nothing or that of one
    authenticated request on an endpoint-scoped path. *)
Definition request_like {A : Type} (c : M A) : Prop :=
  forall st,
    snd (c st) = st
    \/ exists path query data method,
         snd (c st)
         = snd (auth (fun token => _request path false query data method token) st).

End WithPlatform.

End Spec.

(** * Properties *)

Import Py Exc Http Client Decorators ContainerApi Models Spec.
Local Open Scope py_scope.

(** ** Path construction *)

Lemma request_path_absolute (self : APIClient) (path : string) :
  request_path self true path = spec_effective_path self true path.
Proof. reflexivity. Qed.

Lemma request_path_scoped (self : APIClient) (path : string) :
  request_path self false path = "/api/endpoints/1/docker" ++ path.
Proof. reflexivity. Qed.

Lemma request_path_default_endpoint (self : APIClient) (abs_path : bool) (path : string) :
  env_id self = PInt 1 ->
  request_path self abs_path path = spec_effective_path self abs_path path.
Proof.
  intros Hid. unfold request_path, spec_effective_path.
  rewrite Hid. destruct abs_path; reflexivity.
Qed.

(** C1. A client configured with [env_id = 2] still routes a non-absolute
    request through endpoint 1: the path sent is
    [/api/endpoints/1/docker/containers/json], where the specification
    gives [/api/endpoints/2/docker/containers/json]. *)
Theorem request_path_ignores_env_id :
  let self := Sim.client (PInt 2) (PStr "tok") (Some 0) in
  let req := build_request self "/containers/json" false [] PNone "GET" (PStr "tok") in
  env_id self = PInt 2
  /\ url_path (url req) = "/api/endpoints/1/docker/containers/json"
  /\ spec_effective_path self false "/containers/json"
     = "/api/endpoints/2/docker/containers/json"
  /\ url_path (url req) <> spec_effective_path self false "/containers/json".
Proof.
  cbv zeta. split; [reflexivity |]. split; [reflexivity |]. split; [reflexivity |].
  vm_compute. discriminate.
Qed.

(** ** The request core *)

Section RequestCore.
Context {P : Platform}.

Variables (path : string) (abs_path : bool) (query : Dict PyVal)
          (data : PyVal) (method : string) (token : PyVal).

(** [_request] makes exactly one attempt: one exchange on the client's
    session, whose answer decides the result. *)
Lemma request_one_exchange (st : State) (session : Session) (t : Transport) (env' : Env) :
  _session (self st) = Some session ->
  session_request session
    (build_request (self st) path abs_path query data method token)
    (env (world st)) = (t, env') ->
  _request path abs_path query data method token st =
    (match t with
     | Failed e => Raise (translate_failure e)
     | Responded response => handle_response response
     end,
     after_exchange st session
       (build_request (self st) path abs_path query data method token) t env').
Proof.
  intros Hs Ht.
  unfold _request, bind, get_self, send, raise, lift, after_exchange.
  rewrite Hs, Ht. destruct t; reflexivity.
Qed.

Lemma error_status_iff (code : Z) :
  ((code / 100 =? 4) || (code / 100 =? 5))%Z%bool = true <-> (400 <= code <= 599)%Z.
Proof.
  pose proof (Z.div_mod code 100 ltac:(lia)) as Hdm.
  pose proof (Z.mod_pos_bound code 100 ltac:(lia)) as Hb.
  rewrite orb_true_iff, !Z.eqb_eq. lia.
Qed.

Lemma handle_response_error (response : Response) :
  (400 <= status response <= 599)%Z ->
  handle_response response =
    res_bind (bytes_decode_utf8 (body response))
      (fun contents => Ok (ActionResponse false (Some contents))).
Proof.
  intros H. apply error_status_iff in H.
  unfold handle_response. rewrite H. reflexivity.
Qed.

Lemma handle_response_success (response : Response) :
  ~ (400 <= status response <= 599)%Z ->
  handle_response response =
    if (status response =? 204)%Z then Ok (ActionResponse true None)
    else if contains "application/json"
              (headers_get (response_headers response) "Content-Type" "")
    then res_bind (response_json response "application/json")
           (fun payload => Ok (JsonPayload payload))
    else res_bind (response_text response) (fun text => Ok (TextPayload text)).
Proof.
  intros H. unfold handle_response.
  destruct ((status response / 100 =? 4) || (status response / 100 =? 5))%Z%bool eqn:E.
  - apply error_status_iff in E. contradiction.
  - reflexivity.
Qed.

(** C2. After a completed round trip the response is classified in this
    order: a status in [400,599] gives [ActionResponse(success=False)]
    with the body decoded as text, whatever the content type, and the
    result does not depend on the JSON decoder; otherwise status 204 gives
    [ActionResponse(success=True)]; otherwise a content type containing
    [application/json] gives the decoded JSON body; otherwise the text
    body is returned. *)
Theorem response_classification
    (st : State) (session : Session) (response : Response) (env' : Env) :
  _session (self st) = Some session ->
  session_request session
    (build_request (self st) path abs_path query data method token)
    (env (world st)) = (Responded response, env') ->
  let result := fst (_request path abs_path query data method token st) in
  let content_type := headers_get (response_headers response) "Content-Type" "" in
  ((400 <= status response <= 599)%Z ->
     (forall message, bytes_decode_utf8 (body response) = Ok message ->
        result = Ok (ActionResponse false (Some message)))
     /\ (forall decoder,
           handle_response (P := with_response_json P decoder) response
           = handle_response response))
  /\ (~ (400 <= status response <= 599)%Z -> status response = 204%Z ->
        result = Ok (ActionResponse true None))
  /\ (~ (400 <= status response <= 599)%Z -> status response <> 204%Z ->
        contains "application/json" content_type = true ->
        forall payload, response_json response "application/json" = Ok payload ->
          result = Ok (JsonPayload payload))
  /\ (~ (400 <= status response <= 599)%Z -> status response <> 204%Z ->
        contains "application/json" content_type = false ->
        forall text, response_text response = Ok text ->
          result = Ok (TextPayload text)).
Proof.
  intros Hs Ht result content_type. subst result content_type.
  rewrite (request_one_exchange st session _ env' Hs Ht). cbn [fst].
  split; [| split; [| split]].
  - intros Herr. split.
    + intros message Hm. rewrite handle_response_error by assumption.
      rewrite Hm. reflexivity.
    + intros decoder. apply error_status_iff in Herr.
      unfold handle_response. cbn [status]. rewrite Herr. reflexivity.
  - intros Hok H204. rewrite handle_response_success by assumption.
    rewrite H204. reflexivity.
  - intros Hok H204 Hct payload Hp. rewrite handle_response_success by assumption.
    apply Z.eqb_neq in H204. rewrite H204, Hct, Hp. reflexivity.
  - intros Hok H204 Hct text Htx. rewrite handle_response_success by assumption.
    apply Z.eqb_neq in H204. rewrite H204, Hct, Htx. reflexivity.
Qed.

(** C4. When the round trip does not complete, [_request] raises and
    returns no outcome: a timeout raises [RuntimeError] with the timeout
    message, a client error raises [RuntimeError] with the communication
    message, and the two exceptions differ. *)
Theorem transport_failure_raises
    (st : State) (session : Session) (e : Exn) (env' : Env) :
  _session (self st) = Some session ->
  session_request session
    (build_request (self st) path abs_path query data method token)
    (env (world st)) = (Failed e, env') ->
  let result := fst (_request path abs_path query data method token st) in
  is_ok result = false
  /\ (exn_class e = asyncio_TimeoutError ->
        result = Raise (mkExn RuntimeError timeout_message (Some asyncio_TimeoutError)))
  /\ (exn_class e = aiohttp_ClientError ->
        result = Raise (mkExn RuntimeError communication_message (Some aiohttp_ClientError)))
  /\ mkExn RuntimeError timeout_message (Some asyncio_TimeoutError)
     <> mkExn RuntimeError communication_message (Some aiohttp_ClientError).
Proof.
  intros Hs Ht result. subst result.
  rewrite (request_one_exchange st session _ env' Hs Ht). cbn [fst].
  split; [reflexivity |]. split; [| split].
  - intros Hc. unfold translate_failure. rewrite Hc. reflexivity.
  - intros Hc. unfold translate_failure. rewrite Hc. reflexivity.
  - discriminate.
Qed.

End RequestCore.

(** ** Dictionaries *)

Section DictFacts.
Context {V : Type}.

Lemma dict_set_fresh (d : Dict V) (k : string) (v : V) :
  ~ In k (dict_keys d) -> dict_set d k v = (d ++ [(k, v)])%list.
Proof.
  induction d as [| [k' v'] rest IH]; intros Hfresh; simpl.
  - reflexivity.
  - simpl in Hfresh. destruct (String.eqb_spec k' k) as [-> | Hne].
    + exfalso. apply Hfresh. now left.
    + rewrite IH; [reflexivity |]. intros Hin. apply Hfresh. now right.
Qed.

Lemma dict_get_in (d : Dict V) (k : string) (v : V) :
  dict_get d k = Some v -> In (k, v) d.
Proof.
  induction d as [| [k' v'] rest IH]; simpl; [discriminate |].
  destruct (String.eqb_spec k' k) as [-> | Hne]; intros H.
  - injection H as ->. now left.
  - right. now apply IH.
Qed.

Lemma dict_get_none (d : Dict V) (k : string) :
  dict_get d k = None -> ~ In k (dict_keys d).
Proof.
  induction d as [| [k' v'] rest IH]; simpl; [tauto |].
  destruct (String.eqb_spec k' k) as [-> | Hne]; [discriminate |].
  intros H [Heq | Hin]; [contradiction | now apply IH].
Qed.

Lemma dict_entry_unique (d : Dict V) (k : string) (v w : V) :
  is_dict_repr d -> In (k, v) d -> In (k, w) d -> v = w.
Proof.
  unfold is_dict_repr, dict_keys.
  induction d as [| [k' v'] rest IH]; simpl; [tauto |].
  intros Hnd [Hv | Hv] [Hw | Hw].
  - congruence.
  - inversion Hnd as [| ? ? Hnotin _]; subst. injection Hv as -> ->.
    exfalso. apply Hnotin. apply (in_map fst) in Hw. exact Hw.
  - inversion Hnd as [| ? ? Hnotin _]; subst. injection Hw as -> ->.
    exfalso. apply Hnotin. apply (in_map fst) in Hv. exact Hv.
  - inversion Hnd; subst. now apply IH.
Qed.

Variable keep : string * V -> bool.

Lemma dict_get_filter (d : Dict V) (k : string) (v : V) :
  dict_get d k = Some v -> keep (k, v) = true ->
  dict_get (filter keep d) k = Some v.
Proof.
  induction d as [| [k' v'] rest IH]; simpl; [discriminate |].
  destruct (String.eqb_spec k' k) as [-> | Hne]; intros Hget Hkeep.
  - injection Hget as ->. rewrite Hkeep. simpl. now rewrite String.eqb_refl.
  - destruct (keep (k', v')); simpl.
    + destruct (String.eqb_spec k' k); [contradiction | now apply IH].
    + now apply IH.
Qed.

Lemma filter_keys_NoDup (d : Dict V) :
  is_dict_repr d -> is_dict_repr (filter keep d).
Proof.
  unfold is_dict_repr, dict_keys.
  induction d as [| [k' v'] rest IH]; simpl; intros Hnd; [constructor |].
  inversion Hnd as [| ? ? Hnotin Hrest]; subst.
  destruct (keep (k', v')); simpl; [| now apply IH].
  constructor; [| now apply IH].
  intros Hin. apply Hnotin. apply in_map_iff in Hin as [[k2 v2] [Hk Hin]].
  apply filter_In in Hin as [Hin _]. simpl in Hk. subst k2.
  apply (in_map fst) in Hin. exact Hin.
Qed.

(** A comprehension [{k: v for k, v in d.items() if keep}] over a dict
    is the filtered dict: no insertion meets an existing key. *)
Lemma comprehension_filter (d acc : Dict V) :
  is_dict_repr (acc ++ d)%list ->
  fold_left (fun acc kv => if keep kv then dict_set acc (fst kv) (snd kv) else acc) d acc
  = (acc ++ filter keep d)%list.
Proof.
  unfold is_dict_repr, dict_keys. revert acc.
  induction d as [| [k v] rest IH]; intros acc Hnd; simpl.
  - now rewrite app_nil_r.
  - rewrite map_app in Hnd. simpl in Hnd.
    destruct (keep (k, v)) eqn:Hkeep; simpl.
    + rewrite dict_set_fresh.
      * rewrite IH.
        -- now rewrite <- app_assoc.
        -- rewrite <- app_assoc, map_app. exact Hnd.
      * apply NoDup_remove_2 in Hnd. intros Hin. apply Hnd.
        apply in_or_app. now left.
    + apply IH. rewrite map_app. now apply NoDup_remove_1 in Hnd.
Qed.

End DictFacts.

Lemma is_none_true (v : PyVal) : is_none v = true <-> v = PNone.
Proof. destruct v; simpl; split; congruence. Qed.

Lemma request_query_filter (query : Dict PyVal) :
  is_dict_repr query ->
  request_query query = filter (fun kv => negb (is_none (snd kv))) query.
Proof.
  intros Hd. unfold request_query.
  now rewrite (comprehension_filter (fun kv => negb (is_none (snd kv))) query []).
Qed.

(** C9. In the query of the URL that [_request] builds, a key whose value
    is [None] is absent, and a key with any other value occurs exactly once,
    with that value; no other key appears. *)
Theorem null_query_items_dropped
    (self : APIClient) (path : string) (abs_path : bool) (query : Dict PyVal)
    (data : PyVal) (method : string) (token : PyVal) (key : string) :
  is_dict_repr query ->
  let sent_query := url_query (url (build_request self path abs_path query data method token)) in
  (dict_get query key = Some PNone -> ~ In key (dict_keys sent_query))
  /\ (forall v, dict_get query key = Some v -> v <> PNone ->
        count_occ string_dec (dict_keys sent_query) key = 1%nat
        /\ dict_get sent_query key = Some v)
  /\ (dict_get query key = None -> ~ In key (dict_keys sent_query)).
Proof.
  intros Hd sent_query. subst sent_query. cbn [build_request url url_query].
  rewrite (request_query_filter query Hd).
  set (keep := fun kv : string * PyVal => negb (is_none (snd kv))).
  assert (Hsub : forall k, In k (dict_keys (filter keep query)) ->
                   exists v, In (k, v) query /\ v <> PNone).
  { intros k Hin. apply in_map_iff in Hin as [[k2 v2] [Hk Hin]].
    apply filter_In in Hin as [Hin Hkeep]. simpl in Hk. subst k2.
    exists v2. split; [exact Hin |].
    unfold keep in Hkeep. simpl in Hkeep. intros ->. discriminate. }
  split; [| split].
  - intros Hget Hin. apply Hsub in Hin as [v [Hin Hv]].
    apply dict_get_in in Hget. apply Hv.
    exact (dict_entry_unique query key v PNone Hd Hin Hget).
  - intros v Hget Hv.
    assert (Hget' : dict_get (filter keep query) key = Some v).
    { apply dict_get_filter; [exact Hget |]. unfold keep. simpl.
      destruct v; try reflexivity. congruence. }
    split; [| exact Hget'].
    pose proof (filter_keys_NoDup keep query Hd) as Hnd.
    apply (proj1 (NoDup_count_occ' string_dec _) Hnd).
    apply dict_get_in in Hget'. apply (in_map fst) in Hget'. exact Hget'.
  - intros Hget Hin. apply Hsub in Hin as [v [Hin _]].
    apply dict_get_none in Hget. apply Hget.
    apply (in_map fst) in Hin. exact Hin.
Qed.

(** ** Filter encoding *)

Lemma loop_of_fresh_keys {V W : Type} (g : V -> W) (d : Dict V) (acc : Dict W) :
  NoDup (dict_keys acc ++ dict_keys d)%list ->
  fold_left (fun acc kv => dict_set acc (fst kv) (g (snd kv))) d acc
  = (acc ++ map (fun kv => (fst kv, g (snd kv))) d)%list.
Proof.
  revert acc. induction d as [| [k v] rest IH]; intros acc Hnd; simpl.
  - now rewrite app_nil_r.
  - simpl in Hnd. rewrite dict_set_fresh.
    + rewrite IH.
      * now rewrite <- app_assoc.
      * unfold dict_keys in *. rewrite map_app, <- app_assoc. exact Hnd.
    + apply NoDup_remove_2 in Hnd. intros Hin. apply Hnd.
      apply in_or_app. now left.
Qed.

Lemma convert_filters_result_map (filters : Dict PyVal) :
  is_dict_repr filters ->
  Utils.convert_filters_result filters
  = map (fun kv => (fst kv, Utils.filter_strings (snd kv))) filters.
Proof.
  intros Hd. unfold Utils.convert_filters_result, Utils.convert_filters_step.
  now rewrite (loop_of_fresh_keys Utils.filter_strings filters []).
Qed.

Lemma dict_get_map_values {V W : Type} (g : V -> W) (d : Dict V) (k : string) :
  dict_get (map (fun kv => (fst kv, g (snd kv))) d) k = option_map g (dict_get d k).
Proof.
  induction d as [| [k' v'] rest IH]; simpl; [reflexivity |].
  destruct (k' =? k)%string; [reflexivity | exact IH].
Qed.

(** C5 as the specification states it fails: a boolean inside a list value
    is rendered by [str], with a capital. *)
Lemma convert_filters_bool_in_list_capitalised :
  Utils.convert_filters_result [("dangling", PList [PBool true])] = [("dangling", ["True"])]
  /\ Utils.convert_filters [("dangling", PList [PBool true])]
     = Json.dumps (PDict [("dangling", PList [PStr "True"])])
  /\ ~ (forall (filters : Dict PyVal) (k : string) (v : PyVal),
          is_dict_repr filters -> dict_get filters k = Some v ->
          dict_get (Utils.convert_filters_result filters) k = Some (spec_filter_strings v)).
Proof.
  split; [reflexivity |]. split; [reflexivity |].
  intros Hclaim.
  specialize (Hclaim [("dangling", PList [PBool true])] "dangling" (PList [PBool true])).
  assert (Hd : is_dict_repr [("dangling", PList [PBool true])]).
  { repeat constructor. simpl. tauto. }
  specialize (Hclaim Hd eq_refl). vm_compute in Hclaim. discriminate.
Qed.

(** C5, amended. A boolean given as the value of a key is rendered as
    [true] or [false]; a list value is rendered item by item, strings
    unchanged and every other item by [str] (so a boolean inside a list
    becomes [True] or [False]); any other scalar becomes the one-element
    list of its string; and the result is the JSON text of one object that
    maps each key, in order, to its list of strings. *)
Theorem convert_filters_encoding (filters : Dict PyVal) :
  is_dict_repr filters ->
  let result := Utils.convert_filters_result filters in
  (forall k v, dict_get filters k = Some v ->
     exists strings, dict_get result k = Some strings
       /\ (forall b, v = PBool b -> strings = [if b then "true" else "false"])
       /\ (forall items, v = PList items -> strings = map Utils.stringify_item items)
       /\ (is_bool v = false -> is_list v = false -> strings = [Utils.stringify_item v]))
  /\ (forall b, Utils.stringify_item (PBool b) = if b then "True" else "False")
  /\ (forall s, Utils.stringify_item (PStr s) = s)
  /\ dict_keys result = dict_keys filters
  /\ Utils.convert_filters filters
     = Json.dumps (PDict (map (fun kv => (fst kv, PList (map PStr (snd kv)))) result)).
Proof.
  intros Hd result. subst result.
  rewrite (convert_filters_result_map filters Hd).
  split; [| split; [| split; [| split]]].
  - intros k v Hget. exists (Utils.filter_strings v).
    split; [| split; [| split]].
    + rewrite dict_get_map_values, Hget. reflexivity.
    + intros b ->. destruct b; reflexivity.
    + intros items ->. reflexivity.
    + intros Hb Hl. unfold Utils.filter_strings. rewrite Hb.
      destruct v; try reflexivity. discriminate.
  - intros []; reflexivity.
  - reflexivity.
  - unfold dict_keys. rewrite map_map. apply map_ext. reflexivity.
  - unfold Utils.convert_filters, Utils.strings_value.
    now rewrite (convert_filters_result_map filters Hd).
Qed.

(** ** Token refresh *)

Lemma skipn_length_app {A : Type} (l m : list A) : skipn (List.length l) (l ++ m)%list = m.
Proof. induction l as [| a l IH]; simpl; [reflexivity | exact IH]. Qed.

Lemma skipn_length_self {A : Type} (l : list A) : skipn (List.length l) l = [].
Proof. induction l as [| a l IH]; simpl; [reflexivity | exact IH]. Qed.

Ltac run_monad :=
  unfold bind, ret, raise, lift, get_self, set_self, now, send in *; cbn [fst snd] in *.

Section TokenManager.
Context {P : Platform}.

Lemma credential_request_shape (c : APIClient) :
  method (credential_request c) = "POST"
  /\ url_path (url (credential_request c)) = "/api/auth"
  /\ json (credential_request c)
     = PDict [("username", _username c); ("password", _password c)]
  /\ dict_get (headers (credential_request c)) "Authorization" = None.
Proof. repeat split. Qed.

Lemma token_is_stale_no_token (st : State) :
  _token (self st) = PNone -> token_is_stale st = (Ok true, st).
Proof.
  intros H. unfold token_is_stale. run_monad. rewrite H. reflexivity.
Qed.

Lemma token_is_stale_held (st : State) (expiry t : Z) (env1 : Env) :
  _token (self st) <> PNone ->
  _token_expiry (self st) = Some expiry ->
  datetime_now (env (world st)) = (t, env1) ->
  token_is_stale st = (Ok (expiry <=? t)%Z, at_env st env1).
Proof.
  intros Htok Hexp Hnow. unfold token_is_stale. run_monad.
  destruct (is_none (_token (self st))) eqn:E.
  - apply is_none_true in E. contradiction.
  - rewrite Hnow. cbn [self]. rewrite Hexp. reflexivity.
Qed.

(** The staleness test reads the clock at most; it leaves the client
    and the trace alone. *)
Lemma token_is_stale_frame (st st0 : State) (r : Res bool) :
  token_is_stale st = (r, st0) ->
  self st0 = self st /\ trace (world st0) = trace (world st).
Proof.
  unfold token_is_stale. run_monad.
  destruct (is_none (_token (self st))).
  - intros H. injection H as _ <-. split; reflexivity.
  - destruct (datetime_now (env (world st))) as [t e1]. cbn [self].
    destruct (_token_expiry (self st)); intros H; injection H as _ <-;
      split; reflexivity.
Qed.

Lemma refresh_when_fresh (st st0 : State) :
  token_is_stale st = (Ok false, st0) -> _refresh_token st = (Ok tt, st0).
Proof.
  intros H. unfold _refresh_token, bind. rewrite H. reflexivity.
Qed.

(** What [_refresh_token] does with a stale token, by the answer to the
    credential exchange. *)
Lemma refresh_when_stale (st st0 : State) (session : Session)
    (answer : Transport) (env2 : Env) :
  token_is_stale st = (Ok true, st0) ->
  _session (self st) = Some session ->
  session_request session (credential_request (self st)) (env (world st0)) = (answer, env2) ->
  let st1 := after_exchange st0 session (credential_request (self st)) answer env2 in
  _refresh_token st =
    match answer with
    | Failed e => (Raise (translate_failure e), st1)
    | Responded response =>
        match res_bind (handle_response response) (fun res => outcome_getitem res "jwt") with
        | Raise e => (Raise e, st1)
        | Ok jwt =>
            let (t2, env3) := datetime_now env2 in
            (Ok tt,
             mkState (set_token_expiry (Some (t2 + timedelta 7 59)%Z) (set_token jwt (self st)))
               (world (at_env st1 env3)))
        end
    end.
Proof.
  intros Hstale Hs Hanswer st1.
  destruct (token_is_stale_frame st st0 _ Hstale) as [Hself Htrace].
  unfold _refresh_token. unfold bind at 1. rewrite Hstale.
  unfold bind at 1. unfold get_self at 1. rewrite Hself.
  unfold bind at 1.
  rewrite (request_one_exchange "/auth" true [] _ "POST" PNone st0 session answer env2).
  - fold (credential_request (self st)). rewrite Hself. fold st1.
    destruct answer as [response | e]; [| reflexivity].
    destruct (handle_response response) as [res | e]; [| reflexivity].
    cbn [res_bind]. run_monad.
    destruct (outcome_getitem res "jwt") as [jwt | e]; [| reflexivity].
    cbn [world env self st1 after_exchange].
    destruct (datetime_now env2) as [t2 env3]. subst st1.
    unfold at_env, after_exchange. cbn. rewrite Hself. reflexivity.
  - now rewrite Hself.
  - rewrite Hself. exact Hanswer.
Qed.

End TokenManager.

Section TokenRefresh.
Context {P : Platform}.

(** C3. Before an authenticated call: with no token, or with a token
    whose expiry is at or before the clock reading, [_refresh_token] makes
    exactly one exchange, the POST of the username and password to
    [/api/auth]; when the answer carries a [jwt], the token and the expiry
    are replaced together, the expiry being the next clock reading plus
    7 hours 59 minutes, and the call then runs with the new token; in every
    case the two attributes change together or not at all.  With a token
    whose expiry is after the clock reading, no exchange is made and the
    call runs with the held token. *)
Theorem token_refresh_before_call (st : State) :
  (_token (self st) = PNone -> token_is_stale st = (Ok true, st))
  /\ (forall expiry t env1,
        _token (self st) <> PNone ->
        _token_expiry (self st) = Some expiry ->
        datetime_now (env (world st)) = (t, env1) ->
        token_is_stale st = (Ok (expiry <=? t)%Z, at_env st env1))
  /\ (forall st0,
        token_is_stale st = (Ok false, st0) ->
        _refresh_token st = (Ok tt, st0)
        /\ new_exchanges st st0 = []
        /\ self st0 = self st
        /\ forall (A : Type) (f : PyVal -> M A),
             auth f st = f (_token (self st)) st0)
  /\ (forall st0 session answer env2,
        token_is_stale st = (Ok true, st0) ->
        _session (self st) = Some session ->
        session_request session (credential_request (self st)) (env (world st0))
          = (answer, env2) ->
        let st' := snd (_refresh_token st) in
        new_exchanges st st' = [mkExchange session (credential_request (self st)) answer]
        /\ method (credential_request (self st)) = "POST"
        /\ url_path (url (credential_request (self st))) = "/api/auth"
        /\ json (credential_request (self st))
           = PDict [("username", _username (self st)); ("password", _password (self st))]
        /\ (self st' = self st
            \/ exists jwt t2,
                 self st' = set_token_expiry (Some (t2 + timedelta 7 59)%Z)
                              (set_token jwt (self st)))
        /\ (forall response d jwt t2 env3,
              answer = Responded response ->
              handle_response response = Ok (JsonPayload (PDict d)) ->
              dict_get d "jwt" = Some jwt ->
              datetime_now env2 = (t2, env3) ->
              fst (_refresh_token st) = Ok tt
              /\ _token (self st') = jwt
              /\ _token_expiry (self st') = Some (t2 + 28740000000)%Z
              /\ forall (A : Type) (f : PyVal -> M A), auth f st = f jwt st')).
Proof.
  split; [exact (token_is_stale_no_token st) |].
  split; [exact (token_is_stale_held st) |].
  split.
  - intros st0 Hfresh.
    destruct (token_is_stale_frame st st0 _ Hfresh) as [Hself Htrace].
    pose proof (refresh_when_fresh st st0 Hfresh) as Hrefresh.
    split; [exact Hrefresh |]. split; [| split; [exact Hself |]].
    + unfold new_exchanges. rewrite Htrace. apply skipn_length_self.
    + intros A f. unfold auth. unfold bind at 1. rewrite Hrefresh.
      unfold bind, get_self. rewrite Hself. reflexivity.
  - intros st0 session answer env2 Hstale Hs Hanswer st'.
    destruct (token_is_stale_frame st st0 _ Hstale) as [Hself Htrace].
    pose proof (refresh_when_stale st st0 session answer env2 Hstale Hs Hanswer) as Hrefresh.
    cbv zeta in Hrefresh.
    assert (Htr : trace (world st')
                  = (trace (world st)
                     ++ [mkExchange session (credential_request (self st)) answer])%list).
    { subst st'. rewrite Hrefresh.
      destruct answer as [response | e]; [| cbn; now rewrite Htrace].
      destruct (res_bind (handle_response response) (fun res => outcome_getitem res "jwt"));
        [| cbn; now rewrite Htrace].
      destruct (datetime_now env2). cbn. now rewrite Htrace. }
    split; [unfold new_exchanges; rewrite Htr; apply skipn_length_app |].
    split; [reflexivity |]. split; [reflexivity |]. split; [reflexivity |].
    split.
    + subst st'. rewrite Hrefresh.
      destruct answer as [response | e]; [| left; cbn; exact Hself].
      destruct (res_bind (handle_response response) (fun res => outcome_getitem res "jwt"))
        as [jwt | e]; [| left; cbn; exact Hself].
      destruct (datetime_now env2) as [t2 env3]. right. exists jwt, t2. reflexivity.
    + intros response d jwt t2 env3 -> Hresp Hjwt Hnow.
      assert (Hrun : _refresh_token st
                     = (Ok tt,
                        mkState (set_token_expiry (Some (t2 + timedelta 7 59)%Z)
                                   (set_token jwt (self st)))
                          (world (at_env (after_exchange st0 session
                                            (credential_request (self st))
                                            (Responded response) env2) env3)))).
      { rewrite Hrefresh, Hresp. cbn [res_bind outcome_getitem getitem].
        rewrite Hjwt, Hnow. reflexivity. }
      subst st'. rewrite Hrun. cbn [fst snd self].
      split; [reflexivity |]. split; [reflexivity |]. split; [reflexivity |].
      intros A f. unfold auth. unfold bind at 1. rewrite Hrun.
      unfold bind, get_self. reflexivity.
Qed.

End TokenRefresh.

(** ** Traces *)

Section Traces.
Context {P : Platform}.

Lemma steady_refl (st : State) : steady st st.
Proof.
  split; [reflexivity |]. split; [reflexivity |].
  exists []. split; [now rewrite app_nil_r | constructor].
Qed.

Lemma steady_trans (st1 st2 st3 : State) :
  steady st1 st2 -> steady st2 st3 -> steady st1 st3.
Proof.
  intros [Hs12 [Hc12 [a12 [Ht12 Hf12]]]] [Hs23 [Hc23 [a23 [Ht23 Hf23]]]].
  split; [congruence |]. split; [congruence |]. exists (a12 ++ a23)%list. split.
  - rewrite Ht23, Ht12. now rewrite app_assoc.
  - apply Forall_app. split; [exact Hf12 |].
    rewrite Hs12 in Hf23. exact Hf23.
Qed.

Lemma steady_new_exchanges (st st' : State) :
  steady st st' ->
  Forall (fun x => _session (self st) = Some (via x)) (new_exchanges st st').
Proof.
  intros [_ [_ [added [Ht Hf]]]]. unfold new_exchanges.
  rewrite Ht, skipn_length_app. exact Hf.
Qed.

Lemma request_without_session
    (path : string) (abs_path : bool) (query : Dict PyVal)
    (data : PyVal) (method : string) (token : PyVal) (st : State) :
  _session (self st) = None ->
  exists e, _request path abs_path query data method token st = (Raise e, st).
Proof.
  intros Hs. unfold _request. run_monad. rewrite Hs. eexists. reflexivity.
Qed.

Lemma request_steady
    (path : string) (abs_path : bool) (query : Dict PyVal)
    (data : PyVal) (method : string) (token : PyVal) (st : State) :
  steady st (snd (_request path abs_path query data method token st)).
Proof.
  destruct (_session (self st)) as [session |] eqn:Hs.
  - destruct (session_request session
                (build_request (self st) path abs_path query data method token)
                (env (world st))) as [t env'] eqn:Ht.
    rewrite (request_one_exchange path abs_path query data method token
               st session t env' Hs Ht).
    split; [reflexivity |]. split; [reflexivity |]. eexists. split; [reflexivity |].
    constructor; [exact Hs | constructor].
  - destruct (request_without_session path abs_path query data method token st Hs)
      as [e He].
    rewrite He. apply steady_refl.
Qed.

Lemma token_is_stale_steady (st : State) : steady st (snd (token_is_stale st)).
Proof.
  destruct (token_is_stale st) as [r st0] eqn:E.
  destruct (token_is_stale_frame st st0 r E) as [Hself Htrace].
  split; [cbn; now rewrite Hself |]. split; [cbn; now rewrite Hself |].
  exists []. cbn. split.
  - now rewrite app_nil_r.
  - constructor.
Qed.

Lemma refresh_steady (st : State) : steady st (snd (_refresh_token st)).
Proof.
  destruct (token_is_stale st) as [[[|] | e] st0] eqn:E.
  - destruct (token_is_stale_frame st st0 _ E) as [Hself Htrace].
    destruct (_session (self st)) as [session |] eqn:Hs.
    + destruct (session_request session (credential_request (self st)) (env (world st0)))
        as [answer env2] eqn:Ha.
      rewrite (refresh_when_stale st st0 session answer env2 E Hs Ha).
      assert (Hadd : forall st',
                _session (self st') = _session (self st) ->
                _close_session (self st') = _close_session (self st) ->
                trace (world st')
                = (trace (world st)
                   ++ [mkExchange session (credential_request (self st)) answer])%list ->
                steady st st').
      { intros st' H1 H2 H3. split; [exact H1 |]. split; [exact H2 |].
        eexists. split; [exact H3 |]. constructor; [exact Hs | constructor]. }
      destruct answer as [response | e].
      * destruct (res_bind (handle_response response) (fun res => outcome_getitem res "jwt")).
        -- destruct (datetime_now env2).
           apply Hadd; cbn; [reflexivity | reflexivity | now rewrite Htrace].
        -- apply Hadd; cbn; [now rewrite Hself | now rewrite Hself | now rewrite Htrace].
      * apply Hadd; cbn; [now rewrite Hself | now rewrite Hself | now rewrite Htrace].
    + unfold _refresh_token. unfold bind at 1. rewrite E.
      unfold bind at 1. unfold get_self at 1. unfold bind at 1.
      assert (Hs0 : _session (self st0) = None) by now rewrite Hself.
      destruct (request_without_session "/auth" true []
                  (PDict [("username", _username (self st0));
                          ("password", _password (self st0))])
                  "POST" PNone st0 Hs0) as [e He].
      rewrite He. cbn [snd].
      pose proof (token_is_stale_steady st) as H. now rewrite E in H.
  - rewrite (refresh_when_fresh st st0 E).
    pose proof (token_is_stale_steady st) as H. now rewrite E in H.
  - unfold _refresh_token, bind. rewrite E. cbn [snd].
    pose proof (token_is_stale_steady st) as H. now rewrite E in H.
Qed.

(** An authenticated call is the refresh followed by the call with the
    token then held. *)
Lemma auth_unfold {A : Type} (f : PyVal -> M A) (st : State) :
  auth f st =
    match _refresh_token st with
    | (Ok _, st1) => f (_token (self st1)) st1
    | (Raise e, st1) => (Raise e, st1)
    end.
Proof.
  unfold auth, bind, get_self. destruct (_refresh_token st) as [[[] | e] st1]; reflexivity.
Qed.

Lemma auth_steady {A : Type} (f : PyVal -> M A) (st : State) :
  (forall token st1, steady st1 (snd (f token st1))) ->
  steady st (snd (auth f st)).
Proof.
  intros Hf. rewrite auth_unfold. pose proof (refresh_steady st) as Hr.
  destruct (_refresh_token st) as [[[] | e] st1]; cbn [snd] in *.
  - eapply steady_trans; [exact Hr | apply Hf].
  - exact Hr.
Qed.

Lemma get_steady (path : string) (query : Dict PyVal) (st : State) :
  steady st (snd (_get path query st)).
Proof. apply auth_steady. intros token st1. apply request_steady. Qed.

Lemma post_steady (path : string) (data : PyVal) (query : Dict PyVal) (st : State) :
  steady st (snd (_post path data query st)).
Proof. apply auth_steady. intros token st1. apply request_steady. Qed.

End Traces.

(** ** Session ownership *)

Section Sessions.
Context {P : Platform}.

(** C10. Whatever session the caller supplies, the constructor leaves
    it aside: the client holds the session created by the constructor,
    marked for closing.  [_request], [_get] and [_post] keep the session and
    the mark, and in any state that follows their calls [close] closes the
    client's own session and every exchange has gone through it, never
    through the supplied one. *)
Theorem client_owns_its_session
    (host port env_id username password : PyVal)
    (supplied : option Session) (w : World) :
  (forall s, supplied = Some s -> (s < next_session w)%nat) ->
  let client := fst (__init__ host port env_id username password supplied w) in
  let w' := snd (__init__ host port env_id username password supplied w) in
  let own := next_session w in
  _session client = Some own
  /\ _close_session client = true
  /\ next_session w' = S own
  /\ _session client <> supplied
  /\ (forall st st', self st = client -> steady st st' ->
        _session (self st') = Some own
        /\ Forall (fun x => via x = own /\ Some (via x) <> supplied) (new_exchanges st st')
        /\ fst (close st') = Ok tt
        /\ closed_sessions (world (snd (close st'))) = own :: closed_sessions (world st'))
  /\ (forall st path abs_path query data method token,
        steady st (snd (_request path abs_path query data method token st)))
  /\ (forall st path query, steady st (snd (_get path query st)))
  /\ (forall st path data query, steady st (snd (_post path data query st))).
Proof.
  intros Hsupplied client w' own.
  assert (Hown : _session client = Some own) by reflexivity.
  assert (Hother : Some own <> supplied).
  { intros Heq. symmetry in Heq. apply Hsupplied in Heq. subst own. lia. }
  split; [exact Hown |]. split; [reflexivity |]. split; [reflexivity |].
  split; [rewrite Hown; exact Hother |].
  split; [| split; [| split]].
  - intros st st' Hself Hsteady.
    pose proof (steady_new_exchanges st st' Hsteady) as Hvia.
    destruct Hsteady as [Hsession [Hclose _]].
    rewrite Hself in Hsession, Hclose, Hvia. rewrite Hown in Hsession, Hvia.
    change (_close_session client) with true in Hclose.
    split; [exact Hsession |]. split; [| split].
    + eapply Forall_impl; [| exact Hvia].
      intros x Hx. injection Hx as Hx. rewrite <- Hx. split; [reflexivity | exact Hother].
    + unfold close. rewrite Hsession, Hclose. reflexivity.
    + unfold close. rewrite Hsession, Hclose. reflexivity.
  - intros st path abs_path query data method token. apply request_steady.
  - intros st path query. apply get_steady.
  - intros st path data query. apply post_steady.
Qed.

End Sessions.

(** ** Resource operations *)

Section ResourceOperations.
Context {P : Platform}.

Lemma check_resource_unresolved {A : Type} (f : PyVal -> Dict PyVal -> M A)
    (resource_id : PyVal) (kwargs : Dict PyVal) (st : State) :
  unresolvable "container" resource_id kwargs ->
  check_resource "container" f resource_id kwargs st = (Raise raised_for_null_resource, st).
Proof.
  unfold check_resource.
  intros [[-> Hkw] | [[d [-> [HId HID]]] | [Hnd [Hnn Hfalsy]]]].
  - cbn [is_none andb]. rewrite Hkw. reflexivity.
  - cbn [is_none andb]. unfold dict_get_default. rewrite HId, HID. reflexivity.
  - destruct resource_id; try congruence; cbn [is_none andb]; try discriminate;
      rewrite Hfalsy; reflexivity.
Qed.

Lemma check_resource_string {A : Type} (f : PyVal -> Dict PyVal -> M A)
    (id : string) (kwargs : Dict PyVal) :
  id <> "" ->
  check_resource "container" f (PStr id) kwargs = f (PStr id) kwargs.
Proof.
  intros Hid. unfold check_resource. cbn [is_none andb truthy].
  destruct (String.eqb_spec id ""); [contradiction | reflexivity].
Qed.

(** An authenticated request that returns has refreshed the token and
    then made one exchange, the last of the trace. *)
Lemma authenticated_request_ok
    (path : string) (abs_path : bool) (query : Dict PyVal)
    (data : PyVal) (method : string) (st st' : State) (outcome : Outcome) :
  auth (fun token => _request path abs_path query data method token) st = (Ok outcome, st') ->
  exists st1 session response env',
    _refresh_token st = (Ok tt, st1)
    /\ _session (self st1) = Some session
    /\ handle_response response = Ok outcome
    /\ st' = after_exchange st1 session
               (build_request (self st1) path abs_path query data method (_token (self st1)))
               (Responded response) env'.
Proof.
  rewrite auth_unfold.
  destruct (_refresh_token st) as [[[] | e] st1] eqn:Hr; [| discriminate].
  intros Hreq. destruct (_session (self st1)) as [session |] eqn:Hs.
  - destruct (session_request session
                (build_request (self st1) path abs_path query data method (_token (self st1)))
                (env (world st1))) as [t env'] eqn:Ht.
    rewrite (request_one_exchange path abs_path query data method (_token (self st1))
               st1 session t env' Hs Ht) in Hreq.
    destruct t as [response | e]; [| discriminate].
    injection Hreq as Hh Hst. exists st1, session, response, env'.
    split; [reflexivity |]. split; [exact Hs |]. split; [exact Hh | now symmetry].
  - destruct (request_without_session path abs_path query data method (_token (self st1))
                st1 Hs) as [e He].
    rewrite He in Hreq. discriminate.
Qed.

End ResourceOperations.

Section ResourceCalls.
Context {P : Platform}.

(** Without a resolvable identifier every resource operation raises
    before it touches the client or the network. *)
Lemma unresolved_resource_raises (resource_id : PyVal) (kwargs : Dict PyVal) (st : State) :
  unresolvable "container" resource_id kwargs ->
  Forall (fun op => op resource_id kwargs st = (Raise raised_for_null_resource, st))
    resource_operations.
Proof.
  intros H. unfold resource_operations.
  repeat (constructor; [apply check_resource_unresolved; exact H |]).
  constructor.
Qed.

(** C8. [kill] leaves [signal] out of the query when none is given,
    sends an [int] for a signal that is not a string, and sends a string
    signal as it is; the query of the request made is exactly this dict. *)
Theorem kill_signal_parameter :
  kill_params PNone = Ok []
  /\ (forall z, kill_params (PInt z) = Ok [("signal", PInt z)])
  /\ (forall s, kill_params (PStr s) = Ok [("signal", PStr s)])
  /\ (forall signal params,
        kill_params signal = Ok params ->
        request_query params = params
        /\ (signal = PNone -> dict_get params "signal" = None)
        /\ (signal <> PNone -> is_str signal = true -> params = [("signal", signal)])
        /\ (signal <> PNone -> is_str signal = false ->
              exists z, int_of signal = Ok z /\ params = [("signal", PInt z)]))
  /\ (forall container signal kwargs st outcome st',
        container <> "" ->
        (kwargs = [] /\ signal = PNone) \/ kwargs = [("signal", signal)] ->
        kill (PStr container) kwargs st = (Ok outcome, st') ->
        exists params earlier x,
          kill_params signal = Ok params
          /\ trace (world st') = (earlier ++ [x])%list
          /\ method (sent x) = "POST"
          /\ url_path (url (sent x))
             = "/api/endpoints/1/docker/containers/" ++ container ++ "/kill"
          /\ url_query (url (sent x)) = params).
Proof.
  assert (Hparams : forall signal params,
            kill_params signal = Ok params ->
            request_query params = params
            /\ (signal = PNone -> dict_get params "signal" = None)
            /\ (signal <> PNone -> is_str signal = true -> params = [("signal", signal)])
            /\ (signal <> PNone -> is_str signal = false ->
                  exists z, int_of signal = Ok z /\ params = [("signal", PInt z)])).
  { intros signal params Hk. unfold kill_params in Hk.
    destruct signal as [| b | z | s | l | d]; cbn in Hk; try discriminate;
      injection Hk as <-.
    - split; [reflexivity |]. split; [reflexivity |]. split; congruence.
    - split; [reflexivity |]. split; [discriminate |]. split; [discriminate |].
      intros _ _. eexists. split; reflexivity.
    - split; [reflexivity |]. split; [discriminate |]. split; [discriminate |].
      intros _ _. eexists. split; reflexivity.
    - split; [reflexivity |]. split; [discriminate |]. split; [reflexivity |].
      discriminate. }
  split; [reflexivity |]. split; [reflexivity |]. split; [reflexivity |].
  split; [exact Hparams |].
  intros container signal kwargs st outcome st' Hc Hkw Hkill.
  unfold kill in Hkill. rewrite (check_resource_string _ container kwargs Hc) in Hkill.
  assert (Hsig : dict_get_default kwargs "signal" PNone = signal
                 /\ dict_remove kwargs "signal" = []).
  { destruct Hkw as [[-> ->] | ->]; split; reflexivity. }
  destruct Hsig as [Hsig Hrest]. rewrite Hsig, Hrest in Hkill.
  unfold bind at 1 in Hkill. cbn [no_more_kwargs ret] in Hkill.
  unfold bind at 1 in Hkill. unfold lift at 1 in Hkill.
  destruct (kill_params signal) as [params | e] eqn:Hk; [| discriminate].
  apply authenticated_request_ok in Hkill
    as [st1 [session [response [env' [_ [_ [_ ->]]]]]]].
  exists params, (trace (world st1)), (mkExchange session
    (build_request (self st1) ("/containers/" ++ container ++ "/kill") false params
       PNone "POST" (_token (self st1))) (Responded response)).
  split; [reflexivity |]. split; [reflexivity |]. split; [reflexivity |].
  split; [reflexivity |].
  cbn [sent url url_query build_request]. apply (Hparams signal params Hk).
Qed.

End ResourceCalls.

(** C7. On the scripted platform, [inspect_container], [kill], [pause],
    [restart], [start], [stats], [stop] and [top] called with [None], with
    a dict that has neither [Id] nor [ID], or with the empty string all
    raise before any exchange, and what they raise is the [NameError] for
    the name [errors], which utils/decorators.py never imports, not
    [NullResource]. *)
Theorem null_resource_raises_name_error :
  let st := Sim.state (Sim.client (PInt 1) PNone None) 0 [] in
  raised_for_null_resource = exn NameError "name 'errors' is not defined"
  /\ exn_class raised_for_null_resource <> NullResource
  /\ Forall (fun op =>
       op PNone [] st = (Raise raised_for_null_resource, st)
       /\ op (PDict [("Name", PStr "web")]) [] st = (Raise raised_for_null_resource, st)
       /\ op (PStr "") [] st = (Raise raised_for_null_resource, st))
       (resource_operations (P := Sim.platform)).
Proof.
  cbv zeta. split; [reflexivity |]. split; [discriminate |].
  repeat constructor.
Qed.

(** ** Listing containers *)

Section Listing.
Context {P : Platform}.

Lemma resource_paths_app (a b : list Exchange) :
  resource_paths (a ++ b)%list = (resource_paths a ++ resource_paths b)%list.
Proof. unfold resource_paths. now rewrite filter_app, map_app. Qed.

(** A refresh adds credential exchanges only. *)
Lemma refresh_adds_credentials (st : State) :
  exists creds,
    trace (world (snd (_refresh_token st))) = (trace (world st) ++ creds)%list
    /\ resource_paths creds = [].
Proof.
  destruct (token_is_stale st) as [[[|] | e] st0] eqn:E;
    destruct (token_is_stale_frame st st0 _ E) as [Hself Htrace].
  - destruct (_session (self st)) as [session |] eqn:Hs.
    + destruct (session_request session (credential_request (self st)) (env (world st0)))
        as [answer env2] eqn:Ha.
      rewrite (refresh_when_stale st st0 session answer env2 E Hs Ha).
      exists [mkExchange session (credential_request (self st)) answer].
      split; [| reflexivity].
      destruct answer as [response | e]; [| cbn; now rewrite Htrace].
      destruct (res_bind (handle_response response) (fun res => outcome_getitem res "jwt"));
        [| cbn; now rewrite Htrace].
      destruct (datetime_now env2). cbn. now rewrite Htrace.
    + exists []. split; [| reflexivity].
      unfold _refresh_token. unfold bind at 1. rewrite E.
      unfold bind at 1. unfold get_self at 1. unfold bind at 1.
      assert (Hs0 : _session (self st0) = None) by now rewrite Hself.
      destruct (request_without_session "/auth" true []
                  (PDict [("username", _username (self st0));
                          ("password", _password (self st0))])
                  "POST" PNone st0 Hs0) as [e He].
      rewrite He. cbn [snd]. now rewrite app_nil_r.
  - exists []. rewrite (refresh_when_fresh st st0 E). cbn [snd].
    split; [now rewrite app_nil_r | reflexivity].
  - exists []. unfold _refresh_token, bind. rewrite E. cbn [snd].
    split; [now rewrite app_nil_r | reflexivity].
Qed.

(** An inspect call that returns has made exactly one request that is
    not a credential exchange: the GET of the container's inspect path. *)
Lemma inspect_adds_one (id : string) (st st1 : State) (o : Outcome) :
  inspect_container (PStr id) [] st = (Ok o, st1) ->
  exists added,
    trace (world st1) = (trace (world st) ++ added)%list
    /\ resource_paths added = [inspect_path id].
Proof.
  intros Hin. destruct (String.eqb_spec id "") as [-> | Hid].
  - unfold inspect_container in Hin.
    rewrite check_resource_unresolved in Hin; [discriminate |].
    right. right. split; [reflexivity |]. split; [discriminate | reflexivity].
  - unfold inspect_container in Hin.
    rewrite (check_resource_string _ id [] Hid) in Hin.
    unfold bind at 1 in Hin. cbn [no_more_kwargs ret] in Hin.
    apply authenticated_request_ok in Hin
      as [st_r [session [response [env' [Hr [_ [_ ->]]]]]]].
    destruct (refresh_adds_credentials st) as [creds [Htrace Hcreds]].
    rewrite Hr in Htrace. cbn [snd] in Htrace.
    eexists. split.
    + cbn [after_exchange world trace]. rewrite Htrace, <- app_assoc. reflexivity.
    + rewrite resource_paths_app, Hcreds. reflexivity.
Qed.

Lemma inspections_requests (entries : list PyVal) (st st' : State)
    (answers : list (string * Outcome)) :
  Inspections entries st answers st' ->
  List.length answers = List.length entries
  /\ exists added,
       trace (world st') = (trace (world st) ++ added)%list
       /\ resource_paths added = map (fun io => inspect_path (fst io)) answers.
Proof.
  induction 1 as [st | r rest id st st1 st2 o os Hid Hinspect _ [IHlen [added2 [IHt IHp]]]].
  - split; [reflexivity |]. exists []. split; [now rewrite app_nil_r | reflexivity].
  - split; [simpl; now rewrite IHlen |].
    destruct (inspect_adds_one id st st1 o Hinspect) as [added1 [Ht1 Hp1]].
    exists (added1 ++ added2)%list. split.
    + rewrite IHt, Ht1. now rewrite app_assoc.
    + rewrite resource_paths_app, Hp1, IHp. reflexivity.
Qed.

(** One turn of the loop on an entry whose inspect was answered. *)
Lemma list_step_answered (ignore_removed : bool) (containers : list Container)
    (r : PyVal) (id : string) (st st1 : State) (o : Outcome) :
  getitem r "Id" = Ok (PStr id) ->
  inspect_container (PStr id) [] st = (Ok o, st1) ->
  (is_entity o \/ (is_rejection o /\ ignore_removed = true)) ->
  list_step ignore_removed containers r st
  = (Ok (containers ++ entities [(id, o)])%list, st1).
Proof.
  intros Hid Hinspect Ho.
  unfold list_step, try_except, get. unfold bind at 1. unfold lift at 1. rewrite Hid.
  unfold bind at 1. unfold bind at 1. rewrite Hinspect. unfold lift at 1.
  destruct Ho as [[d ->] | [[m ->] ->]]; cbn.
  - reflexivity.
  - now rewrite app_nil_r.
Qed.

Lemma list_loop_answered (ignore_removed : bool) (entries : list PyVal) (st st' : State)
    (answers : list (string * Outcome)) :
  Inspections entries st answers st' ->
  Forall (fun io => is_entity (snd io) \/ (is_rejection (snd io) /\ ignore_removed = true))
    answers ->
  forall containers,
    list_loop ignore_removed entries containers st
    = (Ok (containers ++ entities answers)%list, st').
Proof.
  induction 1 as [st | r rest id st st1 st2 o os Hid Hinspect _ IH];
    intros Hall containers.
  - cbn. now rewrite app_nil_r.
  - inversion Hall as [| ? ? Ho Hrest]; subst.
    cbn [list_loop]. unfold bind.
    rewrite (list_step_answered ignore_removed containers r id st st1 o Hid Hinspect Ho).
    rewrite (IH Hrest). cbn [entities flat_map]. cbn [snd].
    change (flat_map _ os) with (entities os).
    now rewrite app_nil_r, app_assoc.
Qed.

End Listing.

Section ListingResult.
Context {P : Platform}.

Lemma entities_membership (answers : list (string * Outcome)) (c : Container) :
  In c (entities answers)
  <-> exists id, In (id, JsonPayload (PDict (attrs c))) answers.
Proof.
  unfold entities. rewrite in_flat_map. split.
  - intros [[id o] [Hin Hc]]. cbn [snd] in Hc.
    destruct o as [? ? | [| | | | | d] | ?]; try contradiction.
    destruct Hc as [<- | []]. exists id. exact Hin.
  - intros [id Hin]. exists (id, JsonPayload (PDict (attrs c))).
    split; [exact Hin |]. cbn. left. now destruct c.
Qed.

(** C6. In a non-sparse listing whose summary returned [entries], when
    the inspect call of every entry is answered by a mapping or by a
    server rejection: with [ignore_removed] the result holds exactly the
    entities of the mappings, in order, the rejected entries being
    skipped; the requests made, credential exchanges apart, are the
    inspect requests of the entries, one per entry; and when every answer
    is a mapping the result has one entity per entry whatever
    [ignore_removed] is.  A 404 answer is such a rejection, from which the
    model layer raises [NotFound]. *)
Theorem list_inspects_every_entry
    (all before filters limit since : PyVal) (st0 st st' : State)
    (entries : list PyVal) (answers : list (string * Outcome)) :
  containers (PBool false) all (PBool false) (PBool false) since before limit
    (PBool false) filters st0 = (Ok (JsonPayload (PList entries)), st) ->
  Inspections entries st answers st' ->
  Forall (fun io => is_entity (snd io) \/ is_rejection (snd io)) answers ->
  list_ all before filters limit since false true st0 = (Ok (entities answers), st')
  /\ (forall c, In c (entities answers)
                <-> exists id, In (id, JsonPayload (PDict (attrs c))) answers)
  /\ List.length answers = List.length entries
  /\ resource_paths (new_exchanges st st') = map (fun io => inspect_path (fst io)) answers
  /\ (Forall (fun io => is_entity (snd io)) answers ->
        List.length (entities answers) = List.length entries
        /\ forall ignore_removed,
             list_ all before filters limit since false ignore_removed st0
             = (Ok (entities answers), st'))
  /\ (forall response message,
        status response = 404%Z ->
        bytes_decode_utf8 (body response) = Ok message ->
        handle_response response = Ok (ActionResponse false (Some message))
        /\ prepare_model (ActionResponse false (Some message))
           = Raise (exn NotFound message)).
Proof.
  intros Hsummary Hrun Hall.
  assert (Hlist : forall ignore_removed,
            list_ all before filters limit since false ignore_removed st0
            = list_loop ignore_removed entries [] st).
  { intros ignore_removed. unfold list_. unfold bind at 1. rewrite Hsummary.
    unfold bind at 1. reflexivity. }
  destruct (inspections_requests entries st st' answers Hrun) as [Hlen [added [Ht Hp]]].
  split; [| split; [| split; [| split; [| split]]]].
  - rewrite Hlist.
    rewrite (list_loop_answered true entries st st' answers Hrun); [reflexivity |].
    eapply Forall_impl; [| exact Hall]. intros io [H | H]; [now left | now right].
  - apply entities_membership.
  - exact Hlen.
  - unfold new_exchanges. rewrite Ht, skipn_length_app. exact Hp.
  - intros Hentities. split.
    + rewrite <- Hlen. clear - Hentities.
      induction Hentities as [| [id o] os [d Ho] _ IH]; [reflexivity |].
      cbn [snd] in Ho. subst o. cbn. now rewrite <- IH.
    + intros ignore_removed. rewrite Hlist.
      rewrite (list_loop_answered ignore_removed entries st st' answers Hrun);
        [reflexivity |].
      eapply Forall_impl; [| exact Hentities]. intros io H. now left.
  - intros response message Hstatus Hbody. split; [| reflexivity].
    rewrite handle_response_error by (rewrite Hstatus; lia).
    rewrite Hbody. reflexivity.
Qed.

End ListingResult.

(** * The properties on concrete traffic *)

(** The three responses of the specification's classification example. *)
Lemma response_classification_witness :
  fst (_request (P := Sim.platform) "/containers/c2/kill" false [] PNone "POST" (PStr "tok")
         (Sim.answered (Responded (Sim.text_response 204 ""))))
    = Ok (ActionResponse true None)
  /\ fst (_request (P := Sim.platform) "/containers/c2/json" false [] PNone "GET" (PStr "tok")
            (Sim.answered (Responded (Sim.text_response 404 "no such container"))))
       = Ok (ActionResponse false (Some "no such container"))
  /\ fst (_request (P := Sim.platform) "/containers/abc/json" false [] PNone "GET" (PStr "tok")
            (Sim.answered (Responded (Sim.json_response 200 (PDict [("Id", PStr "abc")])))))
       = Ok (JsonPayload (PDict [("Id", PStr "abc")])).
Proof.
  split; [| split].
  - refine (proj1 (proj2 (response_classification (P := Sim.platform)
              _ _ _ _ _ _ (Sim.answered (Responded (Sim.text_response 204 ""))) 0%nat _ _
              eq_refl eq_refl)) _ eq_refl).
    simpl. lia.
  - refine (proj1 (proj1 (response_classification (P := Sim.platform)
              _ _ _ _ _ _
              (Sim.answered (Responded (Sim.text_response 404 "no such container")))
              0%nat _ _ eq_refl eq_refl) _) _ eq_refl).
    simpl. lia.
  - refine (proj1 (proj2 (proj2 (response_classification (P := Sim.platform)
              _ _ _ _ _ _
              (Sim.answered (Responded (Sim.json_response 200 (PDict [("Id", PStr "abc")]))))
              0%nat _ _ eq_refl eq_refl))) _ _ eq_refl _ eq_refl).
    + simpl. lia.
    + simpl. lia.
Defined.

(** A timeout and a refused connection. *)
Lemma transport_failure_raises_witness :
  fst (_request (P := Sim.platform) "/containers/json" false [] PNone "GET" (PStr "tok")
         (Sim.answered (Failed (exn asyncio_TimeoutError ""))))
    = Raise (mkExn RuntimeError timeout_message (Some asyncio_TimeoutError))
  /\ fst (_request (P := Sim.platform) "/containers/json" false [] PNone "GET" (PStr "tok")
            (Sim.answered (Failed (exn aiohttp_ClientError "Connection refused"))))
       = Raise (mkExn RuntimeError communication_message (Some aiohttp_ClientError)).
Proof.
  split.
  - exact (proj1 (proj2 (transport_failure_raises (P := Sim.platform)
             _ _ _ _ _ _ (Sim.answered (Failed (exn asyncio_TimeoutError "")))
             0%nat _ _ eq_refl eq_refl)) eq_refl).
  - exact (proj1 (proj2 (proj2 (transport_failure_raises (P := Sim.platform)
             _ _ _ _ _ _
             (Sim.answered (Failed (exn aiohttp_ClientError "Connection refused")))
             0%nat _ _ eq_refl eq_refl))) eq_refl).
Defined.

(** A query with two [None] items. *)
Lemma null_query_items_dropped_witness :
  let query := [("limit", PInt (-1)); ("since", PNone); ("all", PInt 1); ("before", PNone)] in
  let sent_query :=
    url_query (url (build_request Sim.held "/containers/json" false query PNone "GET"
                      (PStr "tok"))) in
  is_dict_repr query
  /\ ~ In "since" (dict_keys sent_query)
  /\ count_occ string_dec (dict_keys sent_query) "all" = 1%nat
  /\ dict_get sent_query "all" = Some (PInt 1).
Proof.
  cbv zeta.
  assert (Hd : is_dict_repr
                 [("limit", PInt (-1)); ("since", PNone); ("all", PInt 1); ("before", PNone)]).
  { unfold is_dict_repr. cbn.
    repeat (constructor; [cbn; intuition discriminate |]). constructor. }
  split; [exact Hd |].
  pose proof (null_query_items_dropped Sim.held "/containers/json" false _ PNone "GET"
                (PStr "tok") "since" Hd) as Hsince.
  pose proof (null_query_items_dropped Sim.held "/containers/json" false _ PNone "GET"
                (PStr "tok") "all" Hd) as Hall.
  cbv zeta in Hsince, Hall.
  split; [exact (proj1 Hsince eq_refl) |].
  apply (proj1 (proj2 Hall) (PInt 1) eq_refl). discriminate.
Defined.

(** The encoding of a boolean filter, a label list and an exit code. *)
Lemma convert_filters_encoding_witness :
  let filters := [("dangling", PBool true); ("label", PList [PStr "a=b"; PBool false]);
                  ("exited", PInt 0)] in
  is_dict_repr filters
  /\ Utils.convert_filters filters
     = Json.dumps (PDict [("dangling", PList [PStr "true"]);
                          ("label", PList [PStr "a=b"; PStr "False"]);
                          ("exited", PList [PStr "0"])]).
Proof.
  cbv zeta.
  assert (Hd : is_dict_repr
                 [("dangling", PBool true); ("label", PList [PStr "a=b"; PBool false]);
                  ("exited", PInt 0)]).
  { unfold is_dict_repr. cbn.
    repeat (constructor; [cbn; intuition discriminate |]). constructor. }
  split; [exact Hd |].
  exact (proj2 (proj2 (proj2 (proj2 (convert_filters_encoding _ Hd))))).
Defined.

(** The three cases of the token refresh: no token, an expired token, a
    token that is still good. *)
Lemma token_refresh_before_call_witness :
  let answer := Responded (Sim.json_response 200 (PDict [("jwt", PStr "tok")])) in
  let first_call := Sim.state Sim.fresh_client 0 [answer] in
  let expired := Sim.state (Sim.client (PInt 1) (PStr "old") (Some 5000000)) 5000000 [answer] in
  let good := Sim.state Sim.held 0 [answer] in
  (List.length (new_exchanges first_call (snd (_refresh_token first_call))) = 1%nat
   /\ _token (self (snd (_refresh_token first_call))) = PStr "tok"
   /\ _token_expiry (self (snd (_refresh_token first_call))) = Some (1000000 + 28740000000)%Z)
  /\ (List.length (new_exchanges expired (snd (_refresh_token expired))) = 1%nat
      /\ _token (self (snd (_refresh_token expired))) = PStr "tok"
      /\ _token_expiry (self (snd (_refresh_token expired))) = Some (7000000 + 28740000000)%Z)
  /\ new_exchanges good (snd (_refresh_token good)) = [].
Proof.
  intros answer first_call expired good.
  split; [| split].
  - destruct (proj2 (proj2 (proj2 (token_refresh_before_call (P := Sim.platform) first_call)))
                first_call 0%nat answer _ eq_refl eq_refl eq_refl)
      as [Hnew [_ [_ [_ [_ Hjwt]]]]].
    destruct (Hjwt _ _ (PStr "tok") _ _ eq_refl eq_refl eq_refl eq_refl) as [_ [Htok [Hexp _]]].
    split; [rewrite Hnew; reflexivity |]. split; [exact Htok | exact Hexp].
  - destruct (proj2 (proj2 (proj2 (token_refresh_before_call (P := Sim.platform) expired)))
                _ 0%nat answer _ eq_refl eq_refl eq_refl)
      as [Hnew [_ [_ [_ [_ Hjwt]]]]].
    destruct (Hjwt _ _ (PStr "tok") _ _ eq_refl eq_refl eq_refl eq_refl) as [_ [Htok [Hexp _]]].
    split; [rewrite Hnew; reflexivity |]. split; [exact Htok | exact Hexp].
  - destruct (proj1 (proj2 (proj2 (token_refresh_before_call (P := Sim.platform) good)))
                _ eq_refl) as [Hrefresh [Hnew _]].
    rewrite Hrefresh. exact Hnew.
Defined.

(** The end-to-end scenario of the specification: the inspect of [c2] is
    answered by a 404 and the listing holds the entity of [c1] only. *)
Lemma list_inspects_every_entry_witness :
  fst (list_ (P := Sim.platform) (PBool true) PNone PNone (PInt (-1)) PNone false true
         Sim.listing_start)
    = Ok [mkContainer [("Id", PStr "c1"); ("Name", PStr "/web")]]
  /\ resource_paths
       (new_exchanges
          (snd (containers (P := Sim.platform) (PBool false) (PBool true) (PBool false)
                  (PBool false) PNone PNone (PInt (-1)) (PBool false) PNone Sim.listing_start))
          (snd (list_ (P := Sim.platform) (PBool true) PNone PNone (PInt (-1)) PNone false true
                  Sim.listing_start)))
     = [inspect_path "c1"; inspect_path "c2"].
Proof.
  pose (st := snd (containers (P := Sim.platform) (PBool false) (PBool true) (PBool false)
                     (PBool false) PNone PNone (PInt (-1)) (PBool false) PNone
                     Sim.listing_start)).
  pose (st1 := snd (inspect_container (P := Sim.platform) (PStr "c1") [] st)).
  pose (st2 := snd (inspect_container (P := Sim.platform) (PStr "c2") [] st1)).
  assert (Hrun : Inspections (P := Sim.platform)
                   [PDict [("Id", PStr "c1")]; PDict [("Id", PStr "c2")]] st
                   [("c1", JsonPayload (PDict [("Id", PStr "c1"); ("Name", PStr "/web")]));
                    ("c2", ActionResponse false (Some "no such container"))] st2).
  { apply (Inspections_cons _ _ "c1" st st1 st2); [reflexivity | reflexivity |].
    apply (Inspections_cons _ _ "c2" st1 st2 st2); [reflexivity | reflexivity |].
    apply Inspections_nil. }
  assert (Hall : Forall (fun io => is_entity (snd io) \/ is_rejection (snd io))
                   [("c1", JsonPayload (PDict [("Id", PStr "c1"); ("Name", PStr "/web")]));
                    ("c2", ActionResponse false (Some "no such container"))]).
  { constructor; [left; eexists; reflexivity |].
    constructor; [right; eexists; reflexivity | constructor]. }
  destruct (list_inspects_every_entry (P := Sim.platform)
              (PBool true) PNone PNone (PInt (-1)) PNone Sim.listing_start st st2 _ _
              eq_refl Hrun Hall) as [Hlist [_ [_ [Hpaths _]]]].
  split.
  - rewrite Hlist. reflexivity.
  - rewrite Hlist. exact Hpaths.
Defined.

(** [kill(container, signal=9)] and [kill(container, signal="SIGTERM")]. *)
Lemma kill_signal_parameter_witness :
  let st := Sim.answered (Responded (Sim.text_response 204 "")) in
  (exists earlier x,
     trace (world (snd (kill (P := Sim.platform) (PStr "c1") [("signal", PInt 9)] st)))
       = (earlier ++ [x])%list
     /\ url_query (url (sent x)) = [("signal", PInt 9)])
  /\ (exists earlier x,
        trace (world (snd (kill (P := Sim.platform) (PStr "c1") [("signal", PStr "SIGTERM")] st)))
          = (earlier ++ [x])%list
        /\ url_query (url (sent x)) = [("signal", PStr "SIGTERM")]).
Proof.
  intros st. split.
  - destruct (proj2 (proj2 (proj2 (proj2 (kill_signal_parameter (P := Sim.platform)))))
                "c1" (PInt 9) [("signal", PInt 9)] st _ _
                ltac:(discriminate) (or_intror eq_refl) eq_refl)
      as [params [earlier [x [Hp [Ht [_ [_ Hq]]]]]]].
    exists earlier, x. split; [exact Ht |]. rewrite Hq. injection Hp as <-. reflexivity.
  - destruct (proj2 (proj2 (proj2 (proj2 (kill_signal_parameter (P := Sim.platform)))))
                "c1" (PStr "SIGTERM") [("signal", PStr "SIGTERM")] st _ _
                ltac:(discriminate) (or_intror eq_refl) eq_refl)
      as [params [earlier [x [Hp [Ht [_ [_ Hq]]]]]]].
    exists earlier, x. split; [exact Ht |]. rewrite Hq. injection Hp as <-. reflexivity.
Defined.

(** A caller hands session 0 to the constructor; the client works on
    session 1. *)
Lemma client_owns_its_session_witness :
  let w := mkWorld (P := Sim.platform) (Sim.mkSimEnv 0 []) 1%nat [] [] in
  let client := fst (__init__ (PStr "localhost") (PInt 9000) (PInt 1) (PStr "admin")
                       (PStr "secret") (Some 0%nat) w) in
  _session client = Some 1%nat /\ _close_session client = true /\ _session client <> Some 0%nat.
Proof.
  intros w client.
  assert (Hsupplied : forall s, Some 0%nat = Some s -> (s < next_session w)%nat).
  { intros s Hs. injection Hs as <-. simpl. lia. }
  destruct (client_owns_its_session (P := Sim.platform)
              (PStr "localhost") (PInt 9000) (PInt 1) (PStr "admin") (PStr "secret")
              (Some 0%nat) w Hsupplied) as [Hown [Hclose [_ [Hother _]]]].
  split; [exact Hown |]. split; [exact Hclose | exact Hother].
Defined.

(** * Further properties of the code *)

(** ** What an outcome tells about the response *)

Section Outcomes.
Context {P : Platform}.

Lemma handle_response_cases (response : Response) :
  ((400 <= status response <= 599)%Z
   /\ handle_response response
      = res_bind (bytes_decode_utf8 (body response))
          (fun contents => Ok (ActionResponse false (Some contents))))
  \/ (~ (400 <= status response <= 599)%Z
      /\ handle_response response
         = if (status response =? 204)%Z then Ok (ActionResponse true None)
           else if contains "application/json"
                     (headers_get (response_headers response) "Content-Type" "")
           then res_bind (response_json response "application/json")
                  (fun payload => Ok (JsonPayload payload))
           else res_bind (response_text response) (fun text => Ok (TextPayload text))).
Proof.
  destruct (Z_le_dec 400 (status response)) as [Hlo | Hlo];
    [destruct (Z_le_dec (status response) 599) as [Hhi | Hhi] |].
  - left. split; [lia |]. apply handle_response_error. lia.
  - right. split; [lia |]. apply handle_response_success. lia.
  - right. split; [lia |]. apply handle_response_success. lia.
Qed.

Lemma failed_outcome_source (response : Response) (message : option string) :
  handle_response response = Ok (ActionResponse false message) ->
  (400 <= status response <= 599)%Z
  /\ exists text, message = Some text /\ bytes_decode_utf8 (body response) = Ok text.
Proof.
  intros H. destruct (handle_response_cases response) as [[Herr Heq] | [Hok Heq]];
    rewrite Heq in H.
  - split; [exact Herr |].
    destruct (bytes_decode_utf8 (body response)) as [text | e]; [| discriminate].
    cbn in H. injection H as <-. exists text. split; reflexivity.
  - exfalso. destruct (status response =? 204)%Z; [discriminate |].
    destruct (contains _ _).
    + destruct (response_json response "application/json"); discriminate.
    + destruct (response_text response); discriminate.
Qed.

(** X1. The outcome determines the branch taken: a failed
    [ActionResponse] comes from a status in [400,599] and carries the
    decoded body, a successful one comes from status 204 and carries no
    message, a payload comes from neither; and for an error status the
    result depends on the body alone, so that two rejections with the same
    body, a 404 and a 500, say, are the same outcome. *)
Theorem outcome_inversion (response : Response) :
  (forall message,
     handle_response response = Ok (ActionResponse false message) ->
     (400 <= status response <= 599)%Z
     /\ exists text, message = Some text /\ bytes_decode_utf8 (body response) = Ok text)
  /\ (forall message,
        handle_response response = Ok (ActionResponse true message) ->
        status response = 204%Z /\ message = None)
  /\ (forall payload,
        handle_response response = Ok (JsonPayload payload) ->
        ~ (400 <= status response <= 599)%Z /\ status response <> 204%Z
        /\ response_json response "application/json" = Ok payload)
  /\ (forall text,
        handle_response response = Ok (TextPayload text) ->
        ~ (400 <= status response <= 599)%Z /\ status response <> 204%Z
        /\ response_text response = Ok text)
  /\ (forall other,
        (400 <= status response <= 599)%Z ->
        (400 <= status other <= 599)%Z ->
        body other = body response ->
        handle_response other = handle_response response).
Proof.
  pose proof (handle_response_cases response) as Hcases.
  split; [| split; [| split; [| split]]].
  - exact (failed_outcome_source response).
  - intros message H. destruct Hcases as [[Herr Heq] | [Hok Heq]]; rewrite Heq in H.
    + destruct (bytes_decode_utf8 (body response)); discriminate.
    + destruct (Z.eqb_spec (status response) 204) as [H204 | H204].
      * injection H as <-. split; [exact H204 | reflexivity].
      * exfalso. destruct (contains _ _).
        -- destruct (response_json response "application/json"); discriminate.
        -- destruct (response_text response); discriminate.
  - intros payload H. destruct Hcases as [[Herr Heq] | [Hok Heq]]; rewrite Heq in H.
    + destruct (bytes_decode_utf8 (body response)); discriminate.
    + split; [exact Hok |].
      destruct (Z.eqb_spec (status response) 204) as [H204 | H204]; [discriminate |].
      split; [exact H204 |]. destruct (contains _ _).
      * destruct (response_json response "application/json") as [v | e]; [| discriminate].
        cbn in H. now injection H as <-.
      * destruct (response_text response); discriminate.
  - intros text H. destruct Hcases as [[Herr Heq] | [Hok Heq]]; rewrite Heq in H.
    + destruct (bytes_decode_utf8 (body response)); discriminate.
    + split; [exact Hok |].
      destruct (Z.eqb_spec (status response) 204) as [H204 | H204]; [discriminate |].
      split; [exact H204 |]. destruct (contains _ _).
      * destruct (response_json response "application/json"); discriminate.
      * destruct (response_text response) as [t | e]; [| discriminate].
        cbn in H. now injection H as <-.
  - intros other Herr Herr' Hbody.
    rewrite (handle_response_error response Herr), (handle_response_error other Herr').
    now rewrite Hbody.
Qed.

(** X2. [str()] of an [ActionResponse] that [_request] produced never
    raises: it is the success text for a 204 and the failure text followed
    by the body for an error status.  Only a failed [ActionResponse] built
    without a message makes [__str__] raise. *)
Theorem produced_action_response_prints (response : Response) (success : bool)
    (message : option string) :
  handle_response response = Ok (ActionResponse success message) ->
  (success = true /\ ActionResponse_str success message = Ok "Successfully executed action")
  \/ (success = false
      /\ exists text,
           bytes_decode_utf8 (body response) = Ok text
           /\ ActionResponse_str success message
              = Ok ("Failed executing action because " ++ text)).
Proof.
  intros H. destruct success.
  - left. split; reflexivity.
  - right. split; [reflexivity |].
    destruct (failed_outcome_source response message H) as [_ [text [-> Hbody]]].
    exists text. split; [exact Hbody | reflexivity].
Qed.

End Outcomes.

(** ** Resource operations *)

Section Resolution.
Context {P : Platform}.

Lemma truthy_not_none (v : PyVal) : truthy v = true -> is_none v = false.
Proof. destruct v; simpl; congruence. Qed.

(** X3. How [check_resource] finds the identifier: a true positional
    value that is no dict is passed on as it is; of a dict the value under
    [Id] is taken, and the value under [ID] only when the dict has no key
    [Id]; a key [Id] whose value is false makes the call raise even when
    [ID] holds an identifier; and when the positional argument is [None] a
    true keyword argument takes its place and leaves the keyword
    arguments. *)
Theorem check_resource_resolution {A : Type} (f : PyVal -> Dict PyVal -> M A)
    (kwargs : Dict PyVal) :
  (forall id, is_dict id = false -> truthy id = true ->
     check_resource "container" f id kwargs = f id kwargs)
  /\ (forall d v, dict_get d "Id" = Some v -> truthy v = true ->
        check_resource "container" f (PDict d) kwargs = f v kwargs)
  /\ (forall d v, dict_get d "Id" = None -> dict_get d "ID" = Some v -> truthy v = true ->
        check_resource "container" f (PDict d) kwargs = f v kwargs)
  /\ (forall d v st, dict_get d "Id" = Some v -> truthy v = false ->
        check_resource "container" f (PDict d) kwargs st
        = (Raise raised_for_null_resource, st))
  /\ (forall v, dict_get kwargs "container" = Some v -> truthy v = true ->
        check_resource "container" f PNone kwargs
        = check_resource "container" f v (dict_remove kwargs "container")).
Proof.
  split; [| split; [| split; [| split]]].
  - intros id Hd Ht. unfold check_resource.
    destruct id; try discriminate; cbn [is_none andb]; rewrite Ht; reflexivity.
  - intros d v Hid Ht. unfold check_resource, dict_get_default. cbn [is_none andb].
    rewrite Hid, Ht. reflexivity.
  - intros d v Hid HID Ht. unfold check_resource, dict_get_default. cbn [is_none andb].
    rewrite Hid, HID, Ht. reflexivity.
  - intros d v st Hid Ht. unfold check_resource, dict_get_default. cbn [is_none andb].
    rewrite Hid, Ht. reflexivity.
  - intros v Hkw Ht. unfold check_resource, dict_get_default. cbn [is_none andb].
    rewrite Hkw, Ht. rewrite (truthy_not_none v Ht). cbn [andb]. reflexivity.
Qed.

(** The last request of an authenticated call that returned. *)
Lemma authenticated_last_request
    (path : string) (query : Dict PyVal) (data : PyVal) (method : string)
    (st st' : State) (o : Outcome) :
  auth (fun token => _request path false query data method token) st = (Ok o, st') ->
  last_request st' = Some (method, "/api/endpoints/1/docker" ++ path, request_query query).
Proof.
  intros H. apply authenticated_request_ok in H
    as [st1 [session [response [env' [_ [_ [_ ->]]]]]]].
  unfold last_request, after_exchange. cbn [world trace].
  rewrite rev_unit. reflexivity.
Qed.

(** X4. The request behind each resource operation that returns, for a
    container named by a non-empty string: [inspect_container] GETs
    [/containers/{id}/json], [pause] and [start] POST to [/pause] and
    [/start], all three without query; [stats] GETs [/stats] with
    [stream=false]; [restart] and [stop] POST with [t] set to the timeout,
    10 when none is given, and without [t] when the timeout is [None];
    [top] GETs [/top] with [ps_args] only when it is given. *)
Theorem resource_requests (id : string) (st st' : State) (o : Outcome) :
  id <> "" ->
  let at_ := fun suffix => "/api/endpoints/1/docker/containers/" ++ id ++ suffix in
  (inspect_container (PStr id) [] st = (Ok o, st') ->
     last_request st' = Some ("GET", at_ "/json", []))
  /\ (pause (PStr id) [] st = (Ok o, st') ->
        last_request st' = Some ("POST", at_ "/pause", []))
  /\ (start (PStr id) [] st = (Ok o, st') ->
        last_request st' = Some ("POST", at_ "/start", []))
  /\ (stats (PStr id) [] st = (Ok o, st') ->
        last_request st' = Some ("GET", at_ "/stats", [("stream", PStr "false")]))
  /\ (forall kwargs t,
        (kwargs = [] /\ t = PInt 10) \/ kwargs = [("timeout", t)] ->
        restart (PStr id) kwargs st = (Ok o, st') ->
        last_request st'
        = Some ("POST", at_ "/restart", if is_none t then [] else [("t", t)]))
  /\ (forall kwargs t,
        (kwargs = [] /\ t = PInt 10) \/ kwargs = [("timeout", t)] ->
        stop (PStr id) kwargs st = (Ok o, st') ->
        last_request st'
        = Some ("POST", at_ "/stop", if is_none t then [] else [("t", t)]))
  /\ (forall kwargs ps_args,
        (kwargs = [] /\ ps_args = PNone) \/ kwargs = [("ps_args", ps_args)] ->
        top (PStr id) kwargs st = (Ok o, st') ->
        last_request st'
        = Some ("GET", at_ "/top", if is_none ps_args then [] else [("ps_args", ps_args)])).
Proof.
  intros Hid at_.
  assert (Hone : forall k v, request_query [(k, v)] = if is_none v then [] else [(k, v)]).
  { intros k v. unfold request_query. cbn. destruct (is_none v); reflexivity. }
  split; [| split; [| split; [| split; [| split; [| split]]]]].
  - intros H. unfold inspect_container in H.
    rewrite (check_resource_string _ id [] Hid) in H.
    apply (authenticated_last_request _ [] PNone "GET") in H. exact H.
  - intros H. unfold pause in H. rewrite (check_resource_string _ id [] Hid) in H.
    apply (authenticated_last_request _ [] PNone "POST") in H. exact H.
  - intros H. unfold start in H. rewrite (check_resource_string _ id [] Hid) in H.
    apply (authenticated_last_request _ [] PNone "POST") in H. exact H.
  - intros H. unfold stats in H. rewrite (check_resource_string _ id [] Hid) in H.
    apply (authenticated_last_request _ [("stream", PStr "false")] PNone "GET") in H.
    exact H.
  - intros kwargs t Hkw H. unfold restart in H.
    rewrite (check_resource_string _ id kwargs Hid) in H.
    assert (Ht : dict_get_default kwargs "timeout" (PInt 10) = t
                 /\ dict_remove kwargs "timeout" = []).
    { destruct Hkw as [[-> ->] | ->]; split; reflexivity. }
    destruct Ht as [Ht Hrest]. rewrite Ht, Hrest in H.
    apply (authenticated_last_request _ [("t", t)] PNone "POST") in H.
    rewrite H, Hone. reflexivity.
  - intros kwargs t Hkw H. unfold stop in H.
    rewrite (check_resource_string _ id kwargs Hid) in H.
    assert (Ht : dict_get_default kwargs "timeout" (PInt 10) = t
                 /\ dict_remove kwargs "timeout" = []).
    { destruct Hkw as [[-> ->] | ->]; split; reflexivity. }
    destruct Ht as [Ht Hrest]. rewrite Ht, Hrest in H.
    apply (authenticated_last_request _ [("t", t)] PNone "POST") in H.
    rewrite H, Hone. reflexivity.
  - intros kwargs ps_args Hkw H. unfold top in H.
    rewrite (check_resource_string _ id kwargs Hid) in H.
    assert (Ht : dict_get_default kwargs "ps_args" PNone = ps_args
                 /\ dict_remove kwargs "ps_args" = []).
    { destruct Hkw as [[-> ->] | ->]; split; reflexivity. }
    destruct Ht as [Ht Hrest]. rewrite Ht, Hrest in H.
    apply authenticated_last_request in H. rewrite H.
    destruct ps_args; reflexivity.
Qed.

(** X5. [start] with any keyword argument besides the container raises
    before any request and leaves the state as it is; what it raises is the
    [NameError] for the name [errors], which api/container.py never
    imports, where the code means [errors.DeprecatedMethod]. *)
Theorem start_with_configuration_raises (id : string) (kwargs : Dict PyVal) (st : State) :
  id <> "" ->
  kwargs <> [] ->
  dict_get kwargs "container" = None ->
  start (PStr id) kwargs st
  = (Raise (exn NameError "name 'errors' is not defined"), st).
Proof.
  intros Hid Hkw Hc. unfold start. rewrite (check_resource_string _ id kwargs Hid).
  rewrite Hc. destruct kwargs as [| kv rest]; [contradiction | reflexivity].
Qed.

End Resolution.

(** ** The container listing of the API *)

Section ContainerListing.
Context {P : Platform}.

Lemma bind_ok {A B : Type} (c : M A) (k : A -> M B) (st st' : State) (b : B) :
  bind c k st = (Ok b, st') ->
  exists a st1, c st = (Ok a, st1) /\ k a st1 = (Ok b, st').
Proof.
  unfold bind. destruct (c st) as [[a | e] st1]; [| discriminate].
  intros H. exists a, st1. split; [reflexivity | exact H].
Qed.

(** The part of [containers] after the request leaves the state alone. *)
Lemma containers_after_get (quiet trunc : PyVal) (res : Outcome) (st st' : State)
    (o : Outcome) :
  (if truthy quiet then
     items <- lift (iterate res) ;;
     ids <- lift (map_res (fun x => res_bind (getitem x "Id")
                                      (fun i => Ok (PDict [("Id", i)]))) items) ;;
     ret (JsonPayload (PList ids))
   else if truthy trunc then
     items <- lift (iterate res) ;;
     items' <- lift (map_res (fun x => res_bind (getitem x "Id") (fun i =>
                                       res_bind (slice12 i) (fun i' =>
                                       setitem x "Id" i'))) items) ;;
     match res with
     | JsonPayload (PList _) => ret (JsonPayload (PList items'))
     | _ => ret res
     end
   else ret res) st = (Ok o, st') ->
  st' = st.
Proof.
  destruct (truthy quiet); [| destruct (truthy trunc)]; run_monad.
  - destruct (iterate res); [| discriminate].
    destruct (map_res _ _); [| discriminate]. intros H. now injection H.
  - destruct (iterate res); [| discriminate].
    destruct (map_res _ _); [| discriminate].
    destruct res as [? ? | [| | | | ? | ?] | ?]; intros H; now injection H.
  - intros H. now injection H.
Qed.

(** X6. The request of a container listing that returns: a GET of
    [/containers/json] whose query holds, in this order, [limit] (1 when
    [latest] is set, left out when it is [None]), the flags [all], [size]
    and [trunc_cmd] as 0 or 1, [since] and [before] when they are given,
    and [filters], encoded by [convert_filters], when the filters are a
    non-empty dict. *)
Theorem containers_request
    (quiet all trunc latest since before limit size filters : PyVal)
    (st st' : State) (o : Outcome) :
  containers quiet all trunc latest since before limit size filters st = (Ok o, st') ->
  last_request st'
  = Some ("GET", "/api/endpoints/1/docker/containers/json",
          (optional_item "limit" (if truthy latest then PInt 1 else limit)
           ++ [("all", flag all); ("size", flag size); ("trunc_cmd", flag trunc)]
           ++ optional_item "since" since
           ++ optional_item "before" before
           ++ filters_item filters)%list).
Proof.
  intros H. unfold containers in H.
  apply bind_ok in H as [params [st0 [Hparams H]]].
  apply bind_ok in H as [res [st1 [Hget H]]].
  apply containers_after_get in H. subst st'.
  apply authenticated_last_request in Hget. rewrite Hget. clear Hget.
  assert (Hq : request_query params
               = (optional_item "limit" (if truthy latest then PInt 1 else limit)
                  ++ [("all", flag all); ("size", flag size); ("trunc_cmd", flag trunc)]
                  ++ optional_item "since" since
                  ++ optional_item "before" before
                  ++ filters_item filters)%list).
  { assert (Hflag : forall v, is_none (flag v) = false).
    { intros v. unfold flag. destruct (truthy v); reflexivity. }
    fold (flag all) (flag size) (flag trunc) in Hparams.
    pose proof (Hflag all) as Hall. pose proof (Hflag size) as Hsize.
    pose proof (Hflag trunc) as Htrunc.
    assert (Hrun : forall extra,
              request_query
                ([("limit", if truthy latest then PInt 1 else limit);
                  ("all", flag all); ("size", flag size); ("trunc_cmd", flag trunc);
                  ("since", since); ("before", before)] ++ optional_item "filters" extra)%list
              = (optional_item "limit" (if truthy latest then PInt 1 else limit)
                 ++ [("all", flag all); ("size", flag size); ("trunc_cmd", flag trunc)]
                 ++ optional_item "since" since
                 ++ optional_item "before" before
                 ++ optional_item "filters" extra)%list).
    { intros extra. unfold request_query, optional_item.
      destruct (is_none extra) eqn:Hextra; cbn [app fold_left fst snd];
        rewrite ?Hextra, Hall, Hsize, Htrunc;
        destruct (is_none (if truthy latest then PInt 1 else limit));
        destruct (is_none since); destruct (is_none before); reflexivity. }
    destruct (truthy filters) eqn:Hf.
    - destruct filters as [| | | | | d]; try (cbn in Hparams; discriminate).
      destruct d as [| kv d]; [discriminate |].
      unfold filters_item. remember (Utils.convert_filters (kv :: d)) as encoded.
      unfold ret in Hparams. injection Hparams as <- _.
      exact (Hrun (PStr encoded)).
    - assert (Hnone : filters_item filters = []).
      { destruct filters as [| | | | | [| kv d]]; try reflexivity. discriminate. }
      rewrite Hnone. unfold ret in Hparams. injection Hparams as <- _.
      exact (Hrun PNone). }
  rewrite Hq. reflexivity.
Qed.

End ContainerListing.

Section ContainerListingResult.
Context {P : Platform}.

Lemma map_res_wrap {A B C : Type} (f : A -> Res B) (g : B -> C) (l : list A) (r : list C) :
  map_res (fun x => res_bind (f x) (fun i => Ok (g i))) l = Ok r ->
  exists l', map_res f l = Ok l' /\ r = map g l'.
Proof.
  revert r. induction l as [| a l IH]; intros r H; cbn in H.
  - injection H as <-. exists []. split; reflexivity.
  - destruct (f a) as [b | e] eqn:Hfa; [| discriminate]. cbn in H.
    destruct (map_res (fun x => res_bind (f x) (fun i => Ok (g i))) l) as [r' | e];
      [| discriminate].
    cbn in H. injection H as <-. destruct (IH r' eq_refl) as [l' [Hl' ->]].
    exists (b :: l'). cbn. rewrite Hfa, Hl'. split; reflexivity.
Qed.

Lemma map_res_truncated (entries entries' : list PyVal) :
  map_res (fun x => res_bind (getitem x "Id") (fun i =>
                    res_bind (slice12 i) (fun i' => setitem x "Id" i'))) entries
  = Ok entries' ->
  Forall2 truncated entries entries'.
Proof.
  revert entries'. induction entries as [| x l IH]; intros entries' H; cbn in H.
  - injection H as <-. constructor.
  - destruct (getitem x "Id") as [i | e] eqn:Hi; [| discriminate]. cbn in H.
    destruct (slice12 i) as [i' | e] eqn:Hs; [| discriminate]. cbn in H.
    destruct (setitem x "Id" i') as [x' | e] eqn:Hx; [| discriminate]. cbn in H.
    destruct (map_res _ l) as [l' | e]; [| discriminate].
    cbn in H. injection H as <-. constructor; [| now apply IH].
    destruct x as [| | | | | d]; try discriminate.
    cbn in Hi, Hx. destruct (dict_get d "Id") as [v |] eqn:Hd; [| discriminate].
    injection Hi as ->. injection Hx as <-.
    exists d, i, i'. repeat split; assumption.
Qed.

Lemma take_length (n : nat) (s : string) : (String.length (take n s) <= n)%nat.
Proof.
  revert s. induction n as [| n IH]; intros s; [simpl; lia |].
  destruct s as [| c s]; simpl; [lia |]. specialize (IH s). lia.
Qed.

Lemma take_prefix (n : nat) (s : string) : starts_with (take n s) s = true.
Proof.
  revert s. induction n as [| n IH]; intros s; [reflexivity |].
  destruct s as [| c s]; simpl; [reflexivity |].
  now rewrite Ascii.eqb_refl, IH.
Qed.

(** X7. What a container listing returns, from the answer [res] of the
    server: with [quiet] it is the list of one-key dicts [{'Id': id}], one
    per item, with the ids as the server gave them, also when [trunc] is
    set; without [quiet] and with [trunc] every entry of a JSON list has
    its [Id] replaced by its first twelve characters, the other keys
    untouched; with neither it is the answer itself. *)
Theorem containers_result
    (quiet all trunc latest since before limit size filters : PyVal)
    (st st' : State) (o : Outcome) :
  containers quiet all trunc latest since before limit size filters st = (Ok o, st') ->
  exists response res,
    last_answer st' = Some (Responded response)
    /\ handle_response response = Ok res
    /\ (truthy quiet = true ->
          exists items ids,
            iterate res = Ok items
            /\ map_res (fun x => getitem x "Id") items = Ok ids
            /\ o = JsonPayload (PList (map (fun i => PDict [("Id", i)]) ids)))
    /\ (truthy quiet = false -> truthy trunc = true ->
          forall entries, res = JsonPayload (PList entries) ->
            exists entries', o = JsonPayload (PList entries')
                             /\ Forall2 truncated entries entries')
    /\ (truthy quiet = false -> truthy trunc = false -> o = res)
    /\ (forall s, slice12 (PStr s) = Ok (PStr (take 12 s))
                  /\ (String.length (take 12 s) <= 12)%nat
                  /\ starts_with (take 12 s) s = true).
Proof.
  intros H. unfold containers in H.
  apply bind_ok in H as [params [st0 [Hparams H]]].
  apply bind_ok in H as [res [st1 [Hget H]]].
  pose proof (containers_after_get quiet trunc res st1 st' o H) as ->.
  apply authenticated_request_ok in Hget
    as [st2 [session [response [env' [_ [_ [Hres Hst1]]]]]]].
  exists response, res.
  split; [rewrite Hst1; unfold last_answer, after_exchange; cbn [world trace];
          rewrite rev_unit; reflexivity |].
  split; [exact Hres |].
  clear Hst1 Hparams.
  split; [| split; [| split]].
  - intros Hq. rewrite Hq in H. run_monad.
    destruct (iterate res) as [items | e]; [| discriminate].
    destruct (map_res _ items) as [wrapped | e] eqn:Hm; [| discriminate].
    injection H as <-.
    destruct (map_res_wrap (fun x => getitem x "Id") (fun i => PDict [("Id", i)])
                items wrapped Hm) as [ids [Hids ->]].
    exists items, ids. repeat split. exact Hids.
  - intros Hq Ht entries ->. rewrite Hq, Ht in H. run_monad. cbn [iterate] in H.
    destruct (map_res _ entries) as [entries' | e] eqn:Hm; [| discriminate].
    injection H as <-. exists entries'. split; [reflexivity |].
    now apply map_res_truncated.
  - intros Hq Ht. rewrite Hq, Ht in H. run_monad. now injection H.
  - intros s. split; [reflexivity |]. split; [apply take_length | apply take_prefix].
Qed.

End ContainerListingResult.

(** ** The token across calls *)

Section TokenAcrossCalls.
Context {P : Platform}.

(** X8. When the credential exchange is answered by an error status, or
    by a JSON object without [jwt], the authenticated call raises (a
    [TypeError] for the unsubscriptable [ActionResponse], a [KeyError] for
    the missing key) whatever the decorated method is, which therefore
    never runs: the credential exchange is the only exchange made, and the
    client, its token and expiry included, is as before. *)
Theorem rejected_credentials {A : Type} (f : PyVal -> M A)
    (st st0 : State) (session : Session) (response : Response) (env2 : Env) :
  token_is_stale st = (Ok true, st0) ->
  _session (self st) = Some session ->
  session_request session (credential_request (self st)) (env (world st0))
    = (Responded response, env2) ->
  let st1 := after_exchange st0 session (credential_request (self st))
               (Responded response) env2 in
  self st1 = self st
  /\ new_exchanges st st1
     = [mkExchange session (credential_request (self st)) (Responded response)]
  /\ (forall text,
        (400 <= status response <= 599)%Z ->
        bytes_decode_utf8 (body response) = Ok text ->
        auth f st
        = (Raise (exn TypeError "'ActionResponse' object is not subscriptable"), st1))
  /\ (forall d,
        handle_response response = Ok (JsonPayload (PDict d)) ->
        dict_get d "jwt" = None ->
        auth f st = (Raise (exn KeyError "jwt"), st1)).
Proof.
  intros Hstale Hs Hanswer st1.
  destruct (token_is_stale_frame st st0 _ Hstale) as [Hself Htrace].
  pose proof (refresh_when_stale st st0 session (Responded response) env2
                Hstale Hs Hanswer) as Hrefresh.
  cbv zeta in Hrefresh. fold st1 in Hrefresh.
  split; [exact Hself |]. split; [| split].
  - unfold new_exchanges. subst st1. cbn [after_exchange world trace].
    rewrite Htrace. apply skipn_length_app.
  - intros text Hstatus Hbody. rewrite auth_unfold, Hrefresh.
    rewrite (handle_response_error response Hstatus), Hbody. reflexivity.
  - intros d Hres Hjwt. rewrite auth_unfold, Hrefresh, Hres.
    cbn [res_bind outcome_getitem getitem]. rewrite Hjwt. reflexivity.
Qed.

Lemma request_keeps_self
    (path : string) (abs_path : bool) (query : Dict PyVal)
    (data : PyVal) (method : string) (token : PyVal) (st : State) :
  self (snd (_request path abs_path query data method token st)) = self st.
Proof.
  destruct (_session (self st)) as [session |] eqn:Hs.
  - destruct (session_request session
                (build_request (self st) path abs_path query data method token)
                (env (world st))) as [t env'] eqn:Ht.
    rewrite (request_one_exchange path abs_path query data method token
               st session t env' Hs Ht). reflexivity.
  - destruct (request_without_session path abs_path query data method token st Hs)
      as [e He].
    rewrite He. reflexivity.
Qed.

(** A refresh leaves the client as it is or replaces token and expiry. *)
Lemma refresh_self_cases (st : State) :
  self (snd (_refresh_token st)) = self st
  \/ exists jwt t2,
       self (snd (_refresh_token st))
       = set_token_expiry (Some (t2 + timedelta 7 59)%Z) (set_token jwt (self st)).
Proof.
  destruct (token_is_stale st) as [[[|] | e] st0] eqn:E;
    destruct (token_is_stale_frame st st0 _ E) as [Hself Htrace].
  - destruct (_session (self st)) as [session |] eqn:Hs.
    + destruct (session_request session (credential_request (self st)) (env (world st0)))
        as [answer env2] eqn:Ha.
      rewrite (refresh_when_stale st st0 session answer env2 E Hs Ha).
      destruct answer as [response | e]; [| left; exact Hself].
      destruct (res_bind (handle_response response) (fun res => outcome_getitem res "jwt"))
        as [jwt | e]; [| left; exact Hself].
      destruct (datetime_now env2) as [t2 env3]. right. exists jwt, t2. reflexivity.
    + left. unfold _refresh_token. unfold bind at 1. rewrite E.
      unfold bind at 1. unfold get_self at 1. unfold bind at 1.
      assert (Hs0 : _session (self st0) = None) by now rewrite Hself.
      destruct (request_without_session "/auth" true []
                  (PDict [("username", _username (self st0));
                          ("password", _password (self st0))])
                  "POST" PNone st0 Hs0) as [e He].
      rewrite He. exact Hself.
  - left. rewrite (refresh_when_fresh st st0 E). exact Hself.
  - left. unfold _refresh_token, bind. rewrite E. exact Hself.
Qed.

Lemma authenticated_self_cases
    (path : string) (query : Dict PyVal) (data : PyVal) (method : string) (st : State) :
  let st' := snd (auth (fun token => _request path false query data method token) st) in
  self st' = self st
  \/ exists jwt t2,
       self st' = set_token_expiry (Some (t2 + timedelta 7 59)%Z) (set_token jwt (self st)).
Proof.
  cbv zeta. rewrite auth_unfold. pose proof (refresh_self_cases st) as H.
  destruct (_refresh_token st) as [[[] | e] st1]; cbn [snd] in *.
  - rewrite request_keeps_self. exact H.
  - exact H.
Qed.

(** The eight resource operations and the listing act on the state as
    one authenticated request, or not at all. *)
Lemma stateless_then_request_like {A B : Type} (c : M A) (k : A -> M B) :
  stateless c -> (forall a, request_like (k a)) -> request_like (bind c k).
Proof.
  intros Hc Hk st. unfold bind. specialize (Hc st).
  destruct (c st) as [[a | e] st0]; cbn [snd] in Hc; subst st0.
  - apply Hk.
  - left. reflexivity.
Qed.

Lemma request_like_then_stateless {A B : Type} (c : M A) (k : A -> M B) :
  request_like c -> (forall a, stateless (k a)) -> request_like (bind c k).
Proof.
  intros Hc Hk st. unfold bind. specialize (Hc st).
  destruct (c st) as [[a | e] st0]; cbn [snd] in Hc.
  - rewrite (Hk a st0). exact Hc.
  - exact Hc.
Qed.

Lemma stateless_request_like {A : Type} (c : M A) : stateless c -> request_like c.
Proof. intros H st. left. apply H. Qed.

Lemma stateless_lift {A : Type} (r : Res A) : stateless (lift r).
Proof. intros st. reflexivity. Qed.

Lemma stateless_raise {A : Type} (e : Exn) : stateless (raise (A := A) e).
Proof. intros st. reflexivity. Qed.

Lemma stateless_ret {A : Type} (a : A) : stateless (ret a).
Proof. intros st. reflexivity. Qed.

Lemma stateless_bind {A B : Type} (c : M A) (k : A -> M B) :
  stateless c -> (forall a, stateless (k a)) -> stateless (bind c k).
Proof.
  intros Hc Hk st. unfold bind. specialize (Hc st).
  destruct (c st) as [[a | e] st0]; cbn [snd] in Hc; subst st0.
  - apply Hk.
  - reflexivity.
Qed.

Lemma stateless_no_more_kwargs (kwargs : Dict PyVal) : stateless (no_more_kwargs kwargs).
Proof. intros st. destruct kwargs as [| [k v] rest]; reflexivity. Qed.

Lemma get_request_like (path : string) (query : Dict PyVal) : request_like (_get path query).
Proof. intros st. right. exists path, query, PNone, "GET". reflexivity. Qed.

Lemma post_request_like (path : string) (data : PyVal) (query : Dict PyVal) :
  request_like (_post path data query).
Proof. intros st. right. exists path, query, data, "POST". reflexivity. Qed.

Lemma check_resource_request_like {A : Type} (f : PyVal -> Dict PyVal -> M A)
    (resource_id : PyVal) (kwargs : Dict PyVal) :
  (forall id kw, request_like (f id kw)) ->
  request_like (check_resource "container" f resource_id kwargs).
Proof.
  intros Hf. unfold check_resource.
  destruct (is_none resource_id && truthy (dict_get_default kwargs "container" PNone))%bool.
  - match goal with
    | |- request_like (if negb (truthy ?v) then _ else _) => destruct (truthy v)
    end; cbn [negb]; [apply Hf | apply stateless_request_like, stateless_raise].
  - match goal with
    | |- request_like (if negb (truthy ?v) then _ else _) => destruct (truthy v)
    end; cbn [negb]; [apply Hf | apply stateless_request_like, stateless_raise].
Qed.

Lemma resource_operations_request_like (resource_id : PyVal) (kwargs : Dict PyVal) :
  Forall (fun op => request_like (op resource_id kwargs)) resource_operations.
Proof.
  unfold resource_operations.
  repeat (constructor; [apply check_resource_request_like; intros id kw |]);
    [| | | | | | | | constructor].
  - apply stateless_then_request_like;
      [apply stateless_no_more_kwargs | intros _; apply get_request_like].
  - apply stateless_then_request_like; [apply stateless_no_more_kwargs | intros _].
    apply stateless_then_request_like; [apply stateless_lift | intros params].
    apply post_request_like.
  - apply stateless_then_request_like;
      [apply stateless_no_more_kwargs | intros _; apply post_request_like].
  - apply stateless_then_request_like;
      [apply stateless_no_more_kwargs | intros _; apply post_request_like].
  - destruct (dict_get kw "container");
      [apply stateless_request_like, stateless_raise |].
    destruct kw; [apply post_request_like |].
    destruct (load_name ContainerApi.module_names "errors");
      apply stateless_request_like, stateless_raise.
  - apply stateless_then_request_like;
      [apply stateless_no_more_kwargs | intros _; apply get_request_like].
  - apply stateless_then_request_like;
      [apply stateless_no_more_kwargs | intros _; apply post_request_like].
  - apply stateless_then_request_like;
      [apply stateless_no_more_kwargs | intros _; apply get_request_like].
Qed.

Lemma containers_request_like
    (quiet all trunc latest since before limit size filters : PyVal) :
  request_like (containers quiet all trunc latest since before limit size filters).
Proof.
  unfold containers.
  apply stateless_then_request_like.
  - destruct (truthy filters); [| apply stateless_ret].
    destruct filters; try apply stateless_raise. apply stateless_ret.
  - intros params. apply request_like_then_stateless; [apply get_request_like |].
    intros res. destruct (truthy quiet); [| destruct (truthy trunc)].
    + apply stateless_bind; [apply stateless_lift | intros items].
      apply stateless_bind; [apply stateless_lift | intros ids]. apply stateless_ret.
    + apply stateless_bind; [apply stateless_lift | intros items].
      apply stateless_bind; [apply stateless_lift | intros items'].
      destruct res as [? ? | [| | | | ? | ?] | ?]; apply stateless_ret.
    + apply stateless_ret.
Qed.

End TokenAcrossCalls.

Section TokenInvariant.
Context {P : Platform}.

Lemma token_has_expiry_after_refresh (c : APIClient) (jwt : PyVal) (t : Z) :
  token_has_expiry (set_token_expiry (Some t) (set_token jwt c)).
Proof. intros _. exists t. reflexivity. Qed.

Lemma request_like_keeps_expiry {A : Type} (c : M A) (st : State) :
  request_like c ->
  token_has_expiry (self st) ->
  token_has_expiry (self (snd (c st))).
Proof.
  intros Hc Hinv. destruct (Hc st) as [-> | [path [query [data [method ->]]]]];
    [exact Hinv |].
  destruct (authenticated_self_cases path query data method st) as [-> | [jwt [t2 ->]]];
    [exact Hinv | apply token_has_expiry_after_refresh].
Qed.

(** X9. A held token always has an expiry: the constructor builds a
    client without token, and [_refresh_token], [_request], [_get],
    [_post], the container listing and the eight resource operations keep
    the property, whatever they return or raise; under it the staleness
    test of [_refresh_token] always gives an answer and never raises on a
    comparison with [None]. *)
Theorem token_always_has_expiry :
  (forall host port env_id username password session w,
     token_has_expiry (fst (__init__ host port env_id username password session w)))
  /\ (forall st,
        token_has_expiry (self st) ->
        token_has_expiry (self (snd (_refresh_token st)))
        /\ (forall path abs_path query data method token,
              token_has_expiry (self (snd (_request path abs_path query data method token st))))
        /\ (forall path query, token_has_expiry (self (snd (_get path query st))))
        /\ (forall path data query, token_has_expiry (self (snd (_post path data query st))))
        /\ (forall quiet all trunc latest since before limit size filters,
              token_has_expiry
                (self (snd (containers quiet all trunc latest since before limit size
                              filters st))))
        /\ (forall resource_id kwargs,
              Forall (fun op => token_has_expiry (self (snd (op resource_id kwargs st))))
                resource_operations)
        /\ exists stale st0, token_is_stale st = (Ok stale, st0)).
Proof.
  split.
  - intros host port env_id username password session w Hheld. discriminate.
  - intros st Hinv. split; [| split; [| split; [| split; [| split; [| split]]]]].
    + destruct (refresh_self_cases st) as [-> | [jwt [t2 ->]]];
        [exact Hinv | apply token_has_expiry_after_refresh].
    + intros path abs_path query data method token. now rewrite request_keeps_self.
    + intros path query.
      apply request_like_keeps_expiry; [apply get_request_like | exact Hinv].
    + intros path data query.
      apply request_like_keeps_expiry; [apply post_request_like | exact Hinv].
    + intros quiet all trunc latest since before limit size filters.
      apply request_like_keeps_expiry; [apply containers_request_like | exact Hinv].
    + intros resource_id kwargs.
      eapply Forall_impl; [| apply (resource_operations_request_like resource_id kwargs)].
      intros op Hop. apply request_like_keeps_expiry; [exact Hop | exact Hinv].
    + unfold token_is_stale. run_monad.
      destruct (is_none (_token (self st))) eqn:Htok.
      * eexists. eexists. reflexivity.
      * destruct (Hinv Htok) as [expiry Hexp].
        destruct (datetime_now (env (world st))) as [t env1]. cbn [self].
        rewrite Hexp. eexists. eexists. reflexivity.
Qed.

End TokenInvariant.

(** ** The traffic of one call *)

Section Traffic.
Context {P : Platform}.

Lemma credential_request_to_server (c : APIClient) (session : Session) (t : Transport) :
  _session c = Some session ->
  to_server c (mkExchange session (credential_request c) t).
Proof. intros Hs. repeat split. exact Hs. Qed.

(** The exchanges of a refresh: none, or the one credential exchange. *)
Lemma refresh_traffic (st : State) :
  exists creds,
    trace (world (snd (_refresh_token st))) = (trace (world st) ++ creds)%list
    /\ (List.length creds <= 1)%nat
    /\ Forall (fun x => sent x = credential_request (self st) /\ to_server (self st) x) creds.
Proof.
  destruct (token_is_stale st) as [[[|] | e] st0] eqn:E;
    destruct (token_is_stale_frame st st0 _ E) as [Hself Htrace].
  - destruct (_session (self st)) as [session |] eqn:Hs.
    + destruct (session_request session (credential_request (self st)) (env (world st0)))
        as [answer env2] eqn:Ha.
      rewrite (refresh_when_stale st st0 session answer env2 E Hs Ha).
      exists [mkExchange session (credential_request (self st)) answer].
      split; [| split; [simpl; lia |]].
      * destruct answer as [response | e]; [| cbn; now rewrite Htrace].
        destruct (res_bind (handle_response response) (fun res => outcome_getitem res "jwt"));
          [| cbn; now rewrite Htrace].
        destruct (datetime_now env2). cbn. now rewrite Htrace.
      * constructor; [| constructor]. split; [reflexivity |].
        now apply credential_request_to_server.
    + exists []. split; [| split; [simpl; lia | constructor]].
      unfold _refresh_token. unfold bind at 1. rewrite E.
      unfold bind at 1. unfold get_self at 1. unfold bind at 1.
      assert (Hs0 : _session (self st0) = None) by now rewrite Hself.
      destruct (request_without_session "/auth" true []
                  (PDict [("username", _username (self st0));
                          ("password", _password (self st0))])
                  "POST" PNone st0 Hs0) as [e He].
      rewrite He. cbn [snd]. now rewrite app_nil_r.
  - exists []. rewrite (refresh_when_fresh st st0 E). cbn [snd].
    split; [now rewrite app_nil_r | split; [simpl; lia | constructor]].
  - exists []. unfold _refresh_token, bind. rewrite E. cbn [snd].
    split; [now rewrite app_nil_r | split; [simpl; lia | constructor]].
Qed.

Lemma one_call_refl (st : State) : one_call st st.
Proof.
  repeat (split; [reflexivity |]). exists [], [].
  split; [now rewrite app_nil_r |]. split; [simpl; lia |]. split; [simpl; lia |].
  split; constructor.
Qed.

Lemma kept_fields (c c' : APIClient) :
  (c' = c \/ exists jwt t2,
      c' = set_token_expiry (Some (t2 + timedelta 7 59)%Z) (set_token jwt c)) ->
  host c' = host c /\ port c' = port c /\ _username c' = _username c
  /\ _password c' = _password c /\ _session c' = _session c.
Proof.
  intros [-> | [jwt [t2 ->]]]; repeat split; reflexivity.
Qed.

Lemma authenticated_one_call
    (path : string) (query : Dict PyVal) (data : PyVal) (method : string) (st : State) :
  one_call st (snd (auth (fun token => _request path false query data method token) st)).
Proof.
  pose proof (authenticated_self_cases path query data method st) as Hself.
  cbv zeta in Hself. apply kept_fields in Hself.
  destruct Hself as [Hh [Hp [Hu [Hw Hs]]]].
  split; [exact Hh |]. split; [exact Hp |]. split; [exact Hu |].
  split; [exact Hw |]. split; [exact Hs |].
  clear Hh Hp Hu Hw Hs.
  rewrite auth_unfold.
  destruct (refresh_traffic st) as [creds [Htrace [Hlen Hcreds]]].
  pose proof (kept_fields (self st) (self (snd (_refresh_token st)))
                (refresh_self_cases st)) as [Hh [Hp [_ [_ Hs]]]].
  destruct (_refresh_token st) as [[[] | e] st1]; cbn [snd] in *.
  - destruct (_session (self st1)) as [session |] eqn:Hs1.
    + destruct (session_request session
                  (build_request (self st1) path false query data method (_token (self st1)))
                  (env (world st1))) as [t env'] eqn:Ht.
      rewrite (request_one_exchange path false query data method (_token (self st1))
                 st1 session t env' Hs1 Ht).
      exists creds, [mkExchange session
                       (build_request (self st1) path false query data method
                          (_token (self st1))) t].
      split; [cbn; rewrite Htrace; now rewrite <- app_assoc |].
      split; [exact Hlen |]. split; [simpl; lia |]. split; [exact Hcreds |].
      constructor; [| constructor]. split; [reflexivity |].
      unfold to_server. cbn [via sent url url_scheme url_host url_port ssl timeout
                               headers build_request].
      rewrite <- Hs, <- Hh, <- Hp.
      split; [reflexivity |]. split; [reflexivity |]. split; [reflexivity |].
      split; [reflexivity |]. split; [reflexivity |]. split; [reflexivity |].
      unfold request_headers. destruct (is_none (_token (self st1))); reflexivity.
    + destruct (request_without_session path false query data method (_token (self st1))
                  st1 Hs1) as [e He].
      rewrite He. cbn [snd]. exists creds, [].
      split; [rewrite Htrace; now rewrite app_nil_r |].
      split; [exact Hlen |]. split; [simpl; lia |]. split; [exact Hcreds | constructor].
  - exists creds, [].
    split; [rewrite Htrace; now rewrite app_nil_r |].
    split; [exact Hlen |]. split; [simpl; lia |]. split; [exact Hcreds | constructor].
Qed.

Lemma request_like_one_call {A : Type} (c : M A) (st : State) :
  request_like c -> one_call st (snd (c st)).
Proof.
  intros Hc. destruct (Hc st) as [-> | [path [query [data [method ->]]]]].
  - apply one_call_refl.
  - apply authenticated_one_call.
Qed.

(** X10. One call of [_get], [_post], the container listing or a resource
    operation makes at most two exchanges, whatever it returns or raises:
    at most one credential exchange, then at most one other request, and
    never a second attempt.  Every one of them goes through the client's
    session to the client's host and port over the scheme [http], with
    [ssl=True], the 60 second timeout and [Accept: application/json]; the
    call leaves host, port, credentials and session of the client as they
    were. *)
Theorem one_call_traffic (st : State) :
  (forall path query, one_call st (snd (_get path query st)))
  /\ (forall path data query, one_call st (snd (_post path data query st)))
  /\ (forall quiet all trunc latest since before limit size filters,
        one_call st
          (snd (containers quiet all trunc latest since before limit size filters st)))
  /\ (forall resource_id kwargs,
        Forall (fun op => one_call st (snd (op resource_id kwargs st)))
          resource_operations)
  /\ (forall st', one_call st st' ->
        (List.length (new_exchanges st st') <= 2)%nat
        /\ Forall (to_server (self st)) (new_exchanges st st')).
Proof.
  split; [| split; [| split; [| split]]].
  - intros path query. apply request_like_one_call, get_request_like.
  - intros path data query. apply request_like_one_call, post_request_like.
  - intros quiet all trunc latest since before limit size filters.
    apply request_like_one_call, containers_request_like.
  - intros resource_id kwargs.
    eapply Forall_impl; [| apply (resource_operations_request_like resource_id kwargs)].
    intros op Hop. now apply request_like_one_call.
  - intros st' [_ [_ [_ [_ [_ [creds [reqs [Htrace [Hc [Hr [Hcreds Hreqs]]]]]]]]]]].
    unfold new_exchanges. rewrite Htrace, skipn_length_app. split.
    + rewrite length_app. lia.
    + apply Forall_app. split.
      * eapply Forall_impl; [| exact Hcreds]. intros x [_ Hx]. exact Hx.
      * eapply Forall_impl; [| exact Hreqs]. intros x [_ Hx]. exact Hx.
Qed.

End Traffic.

(** ** The cached attributes of a container *)

Section ContainerAttributes.

Lemma lstrip_slash_splits (s : string) :
  exists n, s = slashes n ++ ContainerObject.lstrip_slash s.
Proof.
  induction s as [| c s [n IH]].
  - exists 0%nat. reflexivity.
  - cbn [ContainerObject.lstrip_slash].
    destruct (Ascii.eqb_spec c "/") as [-> | Hc].
    + exists (S n). cbn. now rewrite <- IH.
    + exists 0%nat. reflexivity.
Qed.

Lemma lstrip_slash_no_slash (s : string) :
  starts_with "/" (ContainerObject.lstrip_slash s) = false.
Proof.
  induction s as [| c s IH]; [reflexivity |].
  cbn [ContainerObject.lstrip_slash].
  destruct (Ascii.eqb c "/") eqn:E; [exact IH |].
  change (starts_with "/" (String c s))
    with (Ascii.eqb "/" c && starts_with "" s)%bool.
  rewrite Ascii.eqb_sym, E. reflexivity.
Qed.

(** X11. [Container.name] is [None] when the attributes have no [Name]
    or a [None] one; for a text it is that text without its leading
    slashes, all of them: what is removed is slashes only and what is left
    does not start with a slash; any other value makes it raise
    [AttributeError]. *)
Theorem container_name (c : Container) :
  (dict_get (attrs c) "Name" = None \/ dict_get (attrs c) "Name" = Some PNone ->
     ContainerObject.name c = Ok PNone)
  /\ (forall s, dict_get (attrs c) "Name" = Some (PStr s) ->
        ContainerObject.name c = Ok (PStr (ContainerObject.lstrip_slash s))
        /\ (exists n, s = slashes n ++ ContainerObject.lstrip_slash s)
        /\ starts_with "/" (ContainerObject.lstrip_slash s) = false)
  /\ (forall v, dict_get (attrs c) "Name" = Some v -> is_none v = false -> is_str v = false ->
        exists e, ContainerObject.name c = Raise e /\ exn_class e = AttributeError).
Proof.
  unfold ContainerObject.name, dict_get_default. cbn [getitem].
  split; [| split].
  - intros [H | H]; rewrite H; reflexivity.
  - intros s H. rewrite H. cbn.
    split; [reflexivity |]. split; [apply lstrip_slash_splits | apply lstrip_slash_no_slash].
  - intros v H Hn Hs. rewrite H, Hn. cbn.
    destruct v; try discriminate; eexists; split; reflexivity.
Qed.

(** X12. [Container.labels] raises [DockerException] exactly when the
    attributes have no [Config], and what it returns is never [None]: the
    labels when they are a non-empty value, the empty dict when [Labels] is
    missing, [None] or empty.  [Container.ports] gives the empty dict when
    [NetworkSettings] or its [Ports] is missing, but hands on a [None]
    stored under [Ports]. *)
Theorem container_labels_and_ports (c : Container) :
  (dict_get (attrs c) "Config" = None
   <-> ContainerObject.labels c = Raise (exn DockerException ContainerObject.labels_message))
  /\ (forall v, ContainerObject.labels c = Ok v ->
        is_none v = false /\ (truthy v = true \/ v = PDict []))
  /\ (forall config,
        dict_get (attrs c) "Config" = Some (PDict config) ->
        (dict_get config "Labels" = None -> ContainerObject.labels c = Ok (PDict []))
        /\ (forall l, dict_get config "Labels" = Some l ->
              ContainerObject.labels c = Ok (if truthy l then l else PDict [])))
  /\ (dict_get (attrs c) "NetworkSettings" = None -> ContainerObject.ports c = Ok (PDict []))
  /\ (forall settings,
        dict_get (attrs c) "NetworkSettings" = Some (PDict settings) ->
        (dict_get settings "Ports" = None -> ContainerObject.ports c = Ok (PDict []))
        /\ (forall p, dict_get settings "Ports" = Some p -> ContainerObject.ports c = Ok p)).
Proof.
  unfold ContainerObject.labels, ContainerObject.ports, dict_get_default. cbn [getitem].
  split; [| split; [| split; [| split]]].
  - split.
    + intros H. rewrite H. reflexivity.
    + destruct (dict_get (attrs c) "Config") as [config |]; [| reflexivity].
      cbn. destruct config; cbn; discriminate.
  - intros v. destruct (dict_get (attrs c) "Config") as [config |]; [| discriminate].
    cbn. destruct config as [| | | | | d]; cbn; try discriminate.
    destruct (dict_get d "Labels") as [l |].
    + destruct (truthy l) eqn:Hl; intros H; injection H as <-.
      * split; [now apply truthy_not_none | now left].
      * split; [reflexivity | now right].
    + cbn. intros H. injection H as <-. split; [reflexivity | now right].
  - intros config H. rewrite H. cbn. split.
    + intros Hl. rewrite Hl. reflexivity.
    + intros l Hl. rewrite Hl. reflexivity.
  - intros H. rewrite H. reflexivity.
  - intros settings H. rewrite H. split.
    + intros Hp. rewrite Hp. reflexivity.
    + intros p Hp. rewrite Hp. reflexivity.
Qed.

End ContainerAttributes.

(** ** Versions *)

Section VersionOrder.
Import Versions.
Context {K : Packaging}.

Hypothesis eq_sym : forall a b, version_eq a b = version_eq b a.
Hypothesis gt_not_eq : forall a b, version_gt a b = true -> version_eq a b = false.
Hypothesis gt_asym : forall a b, version_gt a b = true -> version_gt b a = false.
Hypothesis total : forall a b,
  version_eq a b = false -> version_gt a b = false -> version_gt b a = true.

(** X13. For two texts that are versions, and a version order in which
    [==] is symmetric and [>] is a strict total order up to [==]:
    [compare_version] is 0 for equal versions, 1 when the first is the
    lower and -1 when it is the higher (the sign is the reverse of the
    usual one), swapping the arguments negates it, and [version_lt v1 v2]
    holds exactly when [v2 > v1]. *)
Theorem compare_version_order (v1 v2 : string) (s1 s2 : Version) :
  parse v1 = Ok s1 ->
  parse v2 = Ok s2 ->
  (exists c, compare_version v1 v2 = Ok c
     /\ compare_version v2 v1 = Ok (- c)%Z
     /\ (c = 0%Z <-> version_eq s1 s2 = true)
     /\ (c = 1%Z <-> version_gt s2 s1 = true)
     /\ (c = (-1)%Z <-> version_gt s1 s2 = true))
  /\ version_lt v1 v2 = Ok (version_gt s2 s1).
Proof.
  intros H1 H2. unfold version_lt, compare_version. rewrite H1, H2. cbn [res_bind].
  rewrite (eq_sym s2 s1).
  destruct (version_eq s1 s2) eqn:Heq.
  - assert (G21 : version_gt s2 s1 = false).
    { destruct (version_gt s2 s1) eqn:G; [| reflexivity].
      apply gt_not_eq in G. rewrite eq_sym in G. congruence. }
    assert (G12 : version_gt s1 s2 = false).
    { destruct (version_gt s1 s2) eqn:G; [| reflexivity].
      apply gt_not_eq in G. congruence. }
    split; [| cbn; now rewrite G21].
    exists 0%Z. rewrite G21, G12. repeat split; try reflexivity; discriminate.
  - destruct (version_gt s1 s2) eqn:G12.
    + pose proof (gt_asym _ _ G12) as G21. rewrite G21.
      split; [| reflexivity].
      exists (-1)%Z. repeat split; try reflexivity; discriminate.
    + assert (G21 : version_gt s2 s1 = true) by now apply total.
      rewrite G21. split; [| reflexivity].
      exists 1%Z. repeat split; try reflexivity; discriminate.
Qed.

End VersionOrder.

(** ** Filters that encode alike *)

Section FilterForms.

Lemma filter_strings_canonical (v : PyVal) :
  Utils.filter_strings (canonical_filter v) = Utils.filter_strings v.
Proof.
  unfold canonical_filter. generalize (Utils.filter_strings v) as l. intros l.
  unfold Utils.filter_strings. cbn [is_bool].
  induction l as [| x l IH]; [reflexivity |]. cbn [map]. cbn [Utils.stringify_item].
  f_equal. exact IH.
Qed.

(** X14. The encoding of a filter mapping depends only on the list of
    strings each value stands for: replacing every value by that list (a
    scalar by its one-element list, a boolean by [true] or [false] in a
    list, the items of a list by their strings) gives the same text, so
    [convert_filters] cannot tell [True], ['true'] and [['true']] apart. *)
Theorem convert_filters_forms (filters : Dict PyVal) :
  is_dict_repr filters ->
  Utils.convert_filters (map (fun kv => (fst kv, canonical_filter (snd kv))) filters)
  = Utils.convert_filters filters.
Proof.
  intros Hd.
  assert (Hd' : is_dict_repr (map (fun kv : string * PyVal =>
                                     (fst kv, canonical_filter (snd kv))) filters)).
  { unfold is_dict_repr, dict_keys in *. rewrite map_map. exact Hd. }
  unfold Utils.convert_filters.
  rewrite (convert_filters_result_map _ Hd'), (convert_filters_result_map _ Hd).
  rewrite map_map. f_equal. f_equal. apply map_ext.
  intros [k v]. cbn [fst snd]. now rewrite filter_strings_canonical.
Qed.

End FilterForms.

(** * The further properties on concrete values *)

(** A 404 and a 500 with the same body are the same outcome. *)
Lemma outcome_inversion_witness :
  handle_response (P := Sim.platform) (Sim.text_response 500 "no such container")
  = handle_response (P := Sim.platform) (Sim.text_response 404 "no such container").
Proof.
  apply (proj2 (proj2 (proj2 (proj2
           (outcome_inversion (P := Sim.platform)
              (Sim.text_response 404 "no such container")))))).
  - simpl. lia.
  - simpl. lia.
  - reflexivity.
Defined.

(** The text of the outcome of a 404. *)
Lemma produced_action_response_prints_witness :
  handle_response (P := Sim.platform) (Sim.text_response 404 "no such container")
    = Ok (ActionResponse false (Some "no such container"))
  /\ ActionResponse_str false (Some "no such container")
     = Ok "Failed executing action because no such container".
Proof.
  split; [reflexivity |].
  destruct (produced_action_response_prints (P := Sim.platform)
              (Sim.text_response 404 "no such container") false
              (Some "no such container") eq_refl)
    as [[Hs _] | [_ [text [Hbody Hstr]]]].
  - discriminate Hs.
  - rewrite Hstr. injection Hbody as <-. reflexivity.
Defined.

(** A dict with both keys, and a dict whose [Id] is [None]. *)
Lemma check_resource_resolution_witness :
  let f := fun (id : PyVal) (_ : Dict PyVal) => ret (P := Sim.platform) id in
  check_resource "container" f (PDict [("Id", PStr "c1"); ("ID", PStr "c9")]) []
    = f (PStr "c1") []
  /\ check_resource "container" f (PDict [("Id", PNone); ("ID", PStr "c9")]) []
       (Sim.answered (Responded (Sim.text_response 204 "")))
     = (Raise raised_for_null_resource, Sim.answered (Responded (Sim.text_response 204 ""))).
Proof.
  intros f. split.
  - exact (proj1 (proj2 (check_resource_resolution (P := Sim.platform) f []))
             [("Id", PStr "c1"); ("ID", PStr "c9")] (PStr "c1") eq_refl eq_refl).
  - exact (proj1 (proj2 (proj2 (proj2 (check_resource_resolution (P := Sim.platform) f []))))
             [("Id", PNone); ("ID", PStr "c9")] PNone _ eq_refl eq_refl).
Defined.

(** An inspect, and a restart whose timeout is [None]. *)
Lemma resource_requests_witness :
  let st := Sim.answered (Responded (Sim.json_response 200 (PDict [("Id", PStr "abc")]))) in
  let st' := Sim.answered (Responded (Sim.text_response 204 "")) in
  last_request (snd (inspect_container (P := Sim.platform) (PStr "abc") [] st))
    = Some ("GET", "/api/endpoints/1/docker/containers/abc/json", [])
  /\ last_request (snd (restart (P := Sim.platform) (PStr "abc") [("timeout", PNone)] st'))
     = Some ("POST", "/api/endpoints/1/docker/containers/abc/restart", []).
Proof.
  intros st st'. split.
  - refine (proj1 (resource_requests (P := Sim.platform) "abc" st _ _ _) eq_refl).
    discriminate.
  - refine (proj1 (proj2 (proj2 (proj2 (proj2
              (resource_requests (P := Sim.platform) "abc" st' _ _ _)))))
              [("timeout", PNone)] PNone (or_intror eq_refl) eq_refl).
    discriminate.
Defined.

(** [start(container, binds=None)]. *)
Lemma start_with_configuration_raises_witness :
  let st := Sim.answered (Responded (Sim.text_response 204 "")) in
  start (P := Sim.platform) (PStr "abc") [("binds", PNone)] st
  = (Raise (exn NameError "name 'errors' is not defined"), st).
Proof.
  intros st.
  apply (start_with_configuration_raises (P := Sim.platform) "abc" [("binds", PNone)] st);
    [discriminate | discriminate | reflexivity].
Defined.

(** The latest container since [c0] among the running ones. *)
Lemma containers_request_witness :
  let st := Sim.answered
              (Responded (Sim.json_response 200
                            (PList [PDict [("Id", PStr "c1")]; PDict [("Id", PStr "c2")]]))) in
  last_request
    (snd (containers (P := Sim.platform) (PBool false) (PBool true) (PBool false) (PBool true)
            (PStr "c0") PNone (PInt (-1)) (PBool false)
            (PDict [("status", PStr "running")]) st))
  = Some ("GET", "/api/endpoints/1/docker/containers/json",
          [("limit", PInt 1); ("all", PInt 1); ("size", PInt 0); ("trunc_cmd", PInt 0);
           ("since", PStr "c0");
           ("filters", PStr (Utils.convert_filters [("status", PStr "running")]))]).
Proof.
  intros st.
  exact (containers_request (P := Sim.platform) (PBool false) (PBool true) (PBool false)
           (PBool true) (PStr "c0") PNone (PInt (-1)) (PBool false)
           (PDict [("status", PStr "running")]) st _ _ eq_refl).
Defined.

(** A quiet listing with [trunc] set. *)
Lemma containers_result_witness :
  let st := Sim.answered
              (Responded (Sim.json_response 200
                            (PList [PDict [("Id", PStr "c1")]; PDict [("Id", PStr "c2")]]))) in
  let st' := snd (containers (P := Sim.platform) (PBool true) (PBool true) (PBool true)
                    (PBool false) PNone PNone (PInt (-1)) (PBool false) PNone st) in
  fst (containers (P := Sim.platform) (PBool true) (PBool true) (PBool true)
         (PBool false) PNone PNone (PInt (-1)) (PBool false) PNone st)
    = Ok (JsonPayload (PList [PDict [("Id", PStr "c1")]; PDict [("Id", PStr "c2")]]))
  /\ exists response res,
       last_answer st' = Some (Responded response)
       /\ handle_response (P := Sim.platform) response = Ok res
       /\ exists items ids,
            iterate res = Ok items
            /\ map_res (fun x => getitem x "Id") items = Ok ids
            /\ JsonPayload (PList [PDict [("Id", PStr "c1")]; PDict [("Id", PStr "c2")]])
               = JsonPayload (PList (map (fun i => PDict [("Id", i)]) ids)).
Proof.
  intros st st'. split; [reflexivity |].
  destruct (containers_result (P := Sim.platform) (PBool true) (PBool true) (PBool true)
              (PBool false) PNone PNone (PInt (-1)) (PBool false) PNone st st'
              (JsonPayload (PList [PDict [("Id", PStr "c1")]; PDict [("Id", PStr "c2")]]))
              eq_refl) as [response [res [Hlast [Hres [Hquiet _]]]]].
  exists response, res. split; [exact Hlast |]. split; [exact Hres |].
  exact (Hquiet eq_refl).
Defined.

(** A first call whose credentials the server rejects with a 401. *)
Lemma rejected_credentials_witness :
  let st := Sim.state Sim.fresh_client 0
              [Responded (Sim.text_response 401 "Invalid credentials")] in
  fst (_get (P := Sim.platform) "/containers/json" [] st)
    = Raise (exn TypeError "'ActionResponse' object is not subscriptable")
  /\ List.length (trace (world (snd (_get (P := Sim.platform) "/containers/json" [] st))))
     = 1%nat.
Proof.
  intros st.
  destruct (rejected_credentials (P := Sim.platform)
              (fun token => _request "/containers/json" false [] PNone "GET" token)
              st st 0%nat (Sim.text_response 401 "Invalid credentials") _
              eq_refl eq_refl eq_refl) as [_ [_ [Hreject _]]].
  assert (Hget : _get (P := Sim.platform) "/containers/json" [] st
                 = (Raise (exn TypeError "'ActionResponse' object is not subscriptable"),
                    after_exchange st 0%nat (credential_request (self st))
                      (Responded (Sim.text_response 401 "Invalid credentials"))
                      (Sim.mkSimEnv 1000000 []))).
  { apply (Hreject "Invalid credentials"); [simpl; lia | reflexivity]. }
  rewrite Hget. split; reflexivity.
Defined.

(** The client after a first authenticated call. *)
Lemma token_always_has_expiry_witness :
  token_has_expiry
    (self (snd (_get (P := Sim.platform) "/containers/json" [] Sim.listing_start))).
Proof.
  assert (Hinv : token_has_expiry (self Sim.listing_start)).
  { intros H. discriminate H. }
  exact (proj1 (proj2 (proj2
           (proj2 (token_always_has_expiry (P := Sim.platform)) Sim.listing_start Hinv)))
           "/containers/json" []).
Defined.

(** The first listing of the end-to-end scenario: two exchanges. *)
Lemma one_call_traffic_witness :
  (List.length
     (new_exchanges Sim.listing_start
        (snd (_get (P := Sim.platform) "/containers/json" [] Sim.listing_start))) <= 2)%nat.
Proof.
  destruct (one_call_traffic (P := Sim.platform) Sim.listing_start)
    as [Hget [_ [_ [_ Hbound]]]].
  exact (proj1 (Hbound _ (Hget "/containers/json" []))).
Defined.

(** A name with two leading slashes. *)
Lemma container_name_witness :
  ContainerObject.name (mkContainer [("Id", PStr "c1"); ("Name", PStr "//web")])
  = Ok (PStr "web").
Proof.
  exact (proj1 (proj1 (proj2 (container_name
           (mkContainer [("Id", PStr "c1"); ("Name", PStr "//web")]))) "//web" eq_refl)).
Defined.

(** Labels and ports that the server reports as [null]. *)
Lemma container_labels_and_ports_witness :
  let c := mkContainer [("Config", PDict [("Labels", PNone)]);
                        ("NetworkSettings", PDict [("Ports", PNone)])] in
  ContainerObject.labels c = Ok (PDict []) /\ ContainerObject.ports c = Ok PNone.
Proof.
  intros c.
  destruct (container_labels_and_ports c) as [_ [_ [Hlabels [_ Hports]]]].
  split.
  - exact (proj2 (Hlabels [("Labels", PNone)] eq_refl) PNone eq_refl).
  - exact (proj2 (Hports [("Ports", PNone)] eq_refl) PNone eq_refl).
Defined.

(** The example of the docstring of [compare_version]. *)
Lemma compare_version_order_witness :
  Versions.compare_version (K := Sim.packaging) "1.9" "1.10" = Ok 1%Z
  /\ Versions.version_lt (K := Sim.packaging) "1.9" "1.10" = Ok true.
Proof.
  assert (Hsym : forall a b : nat, Nat.eqb a b = Nat.eqb b a).
  { intros a b. apply Nat.eqb_sym. }
  assert (Hne : forall a b : nat, Nat.ltb b a = true -> Nat.eqb a b = false).
  { intros a b H. apply Nat.ltb_lt in H. apply Nat.eqb_neq. lia. }
  assert (Hasym : forall a b : nat, Nat.ltb b a = true -> Nat.ltb a b = false).
  { intros a b H. apply Nat.ltb_lt in H. apply Nat.ltb_ge. lia. }
  assert (Htotal : forall a b : nat,
            Nat.eqb a b = false -> Nat.ltb b a = false -> Nat.ltb a b = true).
  { intros a b H1 H2. apply Nat.eqb_neq in H1. apply Nat.ltb_ge in H2.
    apply Nat.ltb_lt. lia. }
  destruct (compare_version_order (K := Sim.packaging) Hsym Hne Hasym Htotal
              "1.9" "1.10" 9%nat 10%nat eq_refl eq_refl)
    as [[c [Hc [_ [_ [Hone _]]]]] Hlt].
  split.
  - rewrite Hc. f_equal. apply Hone. reflexivity.
  - rewrite Hlt. reflexivity.
Defined.

(** [True] and [['true']] as the value of one filter. *)
Lemma convert_filters_forms_witness :
  Utils.convert_filters [("dangling", PList [PStr "true"])]
  = Utils.convert_filters [("dangling", PBool true)].
Proof.
  apply (convert_filters_forms [("dangling", PBool true)]).
  unfold is_dict_repr. cbn. constructor; [cbn; tauto | constructor].
Defined.
